(** * exa-mcp-server: tool registry, activation selector and tool handlers

  A shallow embedding of the TypeScript sources of the Exa MCP server:
  the tool registry and the two activation selectors ([setupTools] of
  the 0.3.2 entry point and [registerEnabledTools] of the tools
  configuration module), the request builders and response relays of
  the tool handlers, the 0.1.0 single-tool server with its cache of
  recent searches, and the [--list-tools] path of the entry point.

  Conventions of the embedding:
  - a JavaScript [Set<string>] is a [gset string];
  - the tool registry (a [Record<string, ToolRegistry>] object) is the
    list of its entries in the order [Object.entries] yields them, its
    keys being pairwise distinct ([registry_wf]);
  - JavaScript numbers are restricted to integers ([Z]); the handlers
    only test them for truthiness and print them;
  - the one effect of a handler, the HTTP POST, is a parameter
    [post : string -> request -> Upstream] giving the settled promise;
  - lines written to the error stream by the loggers are left out of
    the handlers (no value returned to a caller depends on them); the
    logger and the lines of one handler are in [Logger]. *)

From Stdlib Require Import ZArith String Ascii List Bool DecimalString DecimalZ DecimalPos.
From stdpp Require Import base strings gmap list.

Set Warnings "-register-all,-clear-no-such-hyp".

Local Open Scope string_scope.
Local Open Scope list_scope.
Local Open Scope Z_scope.

(** ** String utilities *)

Module Text.

Definition quote : ascii := "034"%char.
Definition newline : string := String "010"%char EmptyString.

(** [sep.join(items)] with the receiver and argument swapped, as
    [Array.prototype.join] has them. *)
Fixpoint join (sep : string) (items : list string) : string :=
  match items with
  | [] => EmptyString
  | [x] => x
  | x :: rest => x +:+ sep +:+ join sep rest
  end.

(** [s.includes(sub)] of JavaScript. *)
Fixpoint includes (sub s : string) : bool :=
  String.prefix sub s ||
  match s with
  | EmptyString => false
  | String _ s' => includes sub s'
  end.

(** The declarative reading of [includes]: [sub] occurs inside [s]. *)
Definition contains (sub s : string) : Prop :=
  exists pre post, s = pre +:+ sub +:+ post.

End Text.

(** ** JavaScript values, as far as the handlers inspect them *)

Module Js.

(** A JSON-like JavaScript value: what axios hands back as
    [response.data], and what a request may carry as arguments. *)
Inductive value : Type :=
| Undefined
| Null
| Bool (b : bool)
| Num (n : Z)
| Str (s : string)
| Arr (items : list value)
| Obj (props : list (string * value)).

(** ToBoolean: the falsy values are undefined, null, false, 0 and the
    empty string; every array and object is truthy, also the empty
    ones. *)
Definition truthy (v : value) : bool :=
  match v with
  | Undefined | Null => false
  | Bool b => b
  | Num n => negb (n =? 0)
  | Str s => negb (String.eqb s EmptyString)
  | Arr _ | Obj _ => true
  end.

Definition num_to_string (n : Z) : string :=
  NilZero.string_of_int (Z.to_int n).

(** [String(v)], which is also what a template literal applies. *)
Fixpoint to_string (v : value) : string :=
  match v with
  | Undefined => "undefined"
  | Null => "null"
  | Bool true => "true"
  | Bool false => "false"
  | Num n => num_to_string n
  | Str s => s
  | Arr items =>
      Text.join ","
        (map (fun x => match x with
                       | Undefined | Null => EmptyString
                       | _ => to_string x
                       end) items)
  | Obj _ => "[object Object]"
  end.

Fixpoint lookup_prop (k : string) (props : list (string * value)) : value :=
  match props with
  | [] => Undefined
  | (k', v) :: rest => if String.eqb k' k then v else lookup_prop k rest
  end.

(** [v.k] for a property name [k] that no built-in prototype defines
    (the handlers read [results], [message], [query] and [numResults]
    only): an own property of an object, undefined on anything else.
    The receiver is never null or undefined where this is used. *)
Definition get (v : value) (k : string) : value :=
  match v with
  | Obj props => lookup_prop k props
  | _ => Undefined
  end.

(** [v?.k] *)
Definition get_opt (v : value) (k : string) : value :=
  match v with
  | Undefined | Null => Undefined
  | _ => get v k
  end.

(** [a || b] and [a ?? b] on values. *)
Definition or_else (a b : value) : value := if truthy a then a else b.

Definition nullish (v : value) : bool :=
  match v with
  | Undefined | Null => true
  | _ => false
  end.

Definition coalesce (a b : value) : value := if nullish a then b else a.

(** JSON string escaping of one character. *)
Definition hex_digit (n : nat) : ascii :=
  match n with
  | 0 => "0" | 1 => "1" | 2 => "2" | 3 => "3" | 4 => "4" | 5 => "5"
  | 6 => "6" | 7 => "7" | 8 => "8" | 9 => "9" | 10 => "a" | 11 => "b"
  | 12 => "c" | 13 => "d" | 14 => "e" | _ => "f"
  end%nat%char.

Definition escape_char (c : ascii) : string :=
  let n := nat_of_ascii c in
  if Ascii.eqb c Text.quote then String "\" (String Text.quote EmptyString)
  else if Ascii.eqb c "\" then "\\"
  else if (n =? 8)%nat then "\b"
  else if (n =? 9)%nat then "\t"
  else if (n =? 10)%nat then "\n"
  else if (n =? 12)%nat then "\f"
  else if (n =? 13)%nat then "\r"
  else if (n <? 32)%nat then
    "\u00" +:+ String (hex_digit (n / 16)) (String (hex_digit (n mod 16)) EmptyString)
  else String c EmptyString.

Fixpoint escape (s : string) : string :=
  match s with
  | EmptyString => EmptyString
  | String c rest => escape_char c +:+ escape rest
  end.

Definition quoted (s : string) : string :=
  String Text.quote (escape s) +:+ String Text.quote EmptyString.

Definition bracket (opening closing ind : string) (items : list string) : string :=
  match items with
  | [] => opening +:+ closing
  | _ =>
      let ind' := ind +:+ "  " in
      opening +:+ Text.newline +:+ ind'
      +:+ Text.join ("," +:+ Text.newline +:+ ind') items
      +:+ Text.newline +:+ ind +:+ closing
  end.

(** [JSON.stringify(v, null, 2)] below the top level, at indentation
    [ind]: an undefined array element is printed as null, an object
    property whose value is undefined is left out. *)
Fixpoint stringify (ind : string) (v : value) {struct v} : string :=
  match v with
  | Undefined | Null => "null"
  | Bool true => "true"
  | Bool false => "false"
  | Num n => num_to_string n
  | Str s => quoted s
  | Arr items => bracket "[" "]" ind (map (stringify (ind +:+ "  ")) items)
  | Obj props =>
      bracket "{" "}" ind
        ((fix members (ps : list (string * value)) : list string :=
            match ps with
            | [] => []
            | (_, Undefined) :: rest => members rest
            | (k, x) :: rest =>
                (quoted k +:+ ": " +:+ stringify (ind +:+ "  ") x) :: members rest
            end) props)
  end.

(** [JSON.stringify(v, null, 2)] for a defined [v] (the handlers call
    it on truthy data only). *)
Definition JSON_stringify (v : value) : string := stringify EmptyString v.

End Js.

(** ** The tool registry and the activation selectors *)

Module Registry.

Section Tools.

Variables Schema Handler : Type.

(** [interface ToolRegistry] of [tools/config.ts]: one registered tool. *)
Record ToolRegistry : Type := mkTool {
  name : string;
  description : string;
  schema : Schema;
  handler : Handler;
  enabled : bool
}.

(** The value of [toolRegistry], a [Record<string, ToolRegistry>]: its
    entries in iteration order. *)
Definition registry : Type := list (string * ToolRegistry).

Definition Object_entries (toolRegistry : registry) : list (string * ToolRegistry) :=
  toolRegistry.

Definition registry_wf (toolRegistry : registry) : Prop :=
  NoDup toolRegistry.*1.

(** The ids for which an assignment to a plain object adds or replaces
    an own entry placed in insertion order: not [__proto__], whose
    assignment sets the prototype and makes no entry, and not an array
    index ("0", "42", ...), which [Object.entries] yields before all
    other keys; every array index begins with a digit. *)
Definition ordinary_id (id : string) : bool :=
  negb (String.eqb id "__proto__")
  && match id with
     | String c _ => negb ((48 <=? nat_of_ascii c)%nat && (nat_of_ascii c <=? 57)%nat)
     | EmptyString => true
     end.

(** [toolRegistry[id] = tool] for an ordinary id ([ordinary_id]), as
    every tool module does on import: an existing key keeps its place
    and takes the new value, a new key goes last. *)
Fixpoint register (id : string) (tool : ToolRegistry) (toolRegistry : registry) : registry :=
  match toolRegistry with
  | [] => [(id, tool)]
  | (k, old) :: rest =>
      if String.eqb k id then (k, tool) :: rest
      else (k, old) :: register id tool rest
  end.

(** The tools bound into the protocol server by [server.tool(name,
    description, schema, handler)], in binding order. The call belongs
    to the framework; it is taken here for what the entry point uses it
    for, recording the binding. *)
Definition McpServer : Type := list (string * string * Schema * Handler).

Definition server_tool (server : McpServer) (tool : ToolRegistry) : McpServer :=
  server ++ [(name tool, description tool, schema tool, handler tool)].

(** [ExaServer.setupTools] of the 0.3.2 entry point. The state threaded
    through [forEach] is the server and the [registeredTools] array. *)
Definition setupTools_each (specifiedTools : gset string)
    (st : McpServer * list string) (entry : string * ToolRegistry)
    : McpServer * list string :=
  let '(toolId, tool) := entry in
  let shouldRegister :=
    if bool_decide (0 < size specifiedTools)%nat
    then bool_decide (toolId ∈ specifiedTools)
    else enabled tool in
  if shouldRegister
  then (server_tool st.1 tool, st.2 ++ [toolId])
  else st.

Definition setupTools (toolRegistry : registry) (specifiedTools : gset string)
    (server : McpServer) : McpServer * list string :=
  fold_left (setupTools_each specifiedTools) (Object_entries toolRegistry) (server, []).

(** [registerEnabledTools] of the tools configuration module, the
    selector that also takes a set of disabled tools. *)
Definition registerEnabledTools_each (enabledTools disabledTools : gset string)
    (st : McpServer * list string) (entry : string * ToolRegistry)
    : McpServer * list string :=
  let '(toolId, tool) := entry in
  let shouldRegister :=
    (bool_decide (toolId ∈ enabledTools)
     || (bool_decide (size enabledTools = 0%nat) && enabled tool))
    && negb (bool_decide (toolId ∈ disabledTools)) in
  if shouldRegister
  then (server_tool st.1 tool, st.2 ++ [toolId])
  else st.

Definition registerEnabledTools (toolRegistry : registry) (server : McpServer)
    (enabledTools disabledTools : gset string) : McpServer * list string :=
  fold_left (registerEnabledTools_each enabledTools disabledTools)
    (Object_entries toolRegistry) (server, []).

(** The decision each selector takes for one entry, and the server
    after binding a list of entries in order. *)
Definition setupTools_should (specifiedTools : gset string)
    (entry : string * ToolRegistry) : bool :=
  if bool_decide (0 < size specifiedTools)%nat
  then bool_decide (entry.1 ∈ specifiedTools)
  else enabled entry.2.

Definition registerEnabledTools_should (enabledTools disabledTools : gset string)
    (entry : string * ToolRegistry) : bool :=
  (bool_decide (entry.1 ∈ enabledTools)
   || (bool_decide (size enabledTools = 0%nat) && enabled entry.2))
  && negb (bool_decide (entry.1 ∈ disabledTools)).

Definition bind_all (server : McpServer) (entries : list (string * ToolRegistry))
    : McpServer :=
  fold_left server_tool entries.*2 server.

(** The selection algorithm as the specification words it: for each
    [(id, spec)] of the registry, [shouldEnable] is [id ∈ includeIds]
    when [includeIds] is non-empty and [spec.enabledByDefault]
    otherwise, and the id is marked enabled when [shouldEnable] holds
    and [id ∉ excludeIds]. *)
Definition spec_shouldEnable (includeIds : gset string) (entry : string * ToolRegistry) : bool :=
  if bool_decide (includeIds ≠ ∅)
  then bool_decide (entry.1 ∈ includeIds)
  else enabled entry.2.

Definition spec_marked (includeIds excludeIds : gset string)
    (entry : string * ToolRegistry) : bool :=
  spec_shouldEnable includeIds entry && bool_decide (entry.1 ∉ excludeIds).

Definition spec_selection (includeIds excludeIds : gset string)
    (toolRegistry : registry) : list string :=
  (List.filter (spec_marked includeIds excludeIds) toolRegistry).*1.

(** *** The entry point, up to the moment the transport is opened *)

Record Argv : Type := mkArgv {
  tools : list string;
  list_tools : bool
}.

Inductive Outcome : Type :=
| Exit (code : Z) (stdout : list string)
| Uncaught (message : string)
| Serving (server : McpServer) (registeredTools : list string).

(** The four [console.log] calls made for one registry entry. *)
Definition tool_block (entry : string * ToolRegistry) : list string :=
  let '(id, tool) := entry in
  [ "- " +:+ id +:+ ": " +:+ name tool;
    "  Description: " +:+ description tool;
    "  Enabled by default: " +:+ (if enabled tool then "Yes" else "No");
    EmptyString ].

Definition list_tools_stdout (toolRegistry : registry) : list string :=
  "Available tools:" :: concat (map tool_block (Object_entries toolRegistry)).

(** The module body of the 0.3.2 entry point: [argv] as yargs parsed it,
    [EXA_API_KEY] as [process.env] holds it, and the registry the tool
    modules filled on import. A server is created with no tool bound. *)
Definition main (argv : Argv) (EXA_API_KEY : option string)
    (toolRegistry : registry) : Outcome :=
  let specifiedTools : gset string := list_to_set (tools argv) in
  if list_tools argv then Exit 0 (list_tools_stdout toolRegistry)
  else
    match EXA_API_KEY with
    | Some (String _ _) =>
        let '(server, registeredTools) := setupTools toolRegistry specifiedTools [] in
        Serving server registeredTools
    | _ => Uncaught "EXA_API_KEY environment variable is required"
    end.

End Tools.

Arguments mkTool {Schema Handler}.
Arguments name {Schema Handler}.
Arguments description {Schema Handler}.
Arguments schema {Schema Handler}.
Arguments handler {Schema Handler}.
Arguments enabled {Schema Handler}.
Arguments Object_entries {Schema Handler}.
Arguments registry_wf {Schema Handler}.
Arguments register {Schema Handler}.
Arguments server_tool {Schema Handler}.
Arguments setupTools {Schema Handler}.
Arguments registerEnabledTools {Schema Handler}.
Arguments setupTools_should {Schema Handler}.
Arguments registerEnabledTools_should {Schema Handler}.
Arguments bind_all {Schema Handler}.
Arguments spec_shouldEnable {Schema Handler}.
Arguments spec_marked {Schema Handler}.
Arguments spec_selection {Schema Handler}.
Arguments tool_block {Schema Handler}.
Arguments list_tools_stdout {Schema Handler}.
Arguments main {Schema Handler}.
Arguments Exit {Schema Handler}.
Arguments Uncaught {Schema Handler}.
Arguments Serving {Schema Handler}.

End Registry.

(** ** Upstream requests and responses *)

Module Exa.

Inductive livecrawl_t : Type := always | fallback.

(** [contents.text]: a boolean in the 0.1.0 types, an options object
    later. *)
Inductive text_t : Type :=
| TextFlag (b : bool)
| TextOptions (maxCharacters : option Z).

Record Contents : Type := mkContents {
  text : text_t;
  livecrawl : option livecrawl_t;
  subpages : option Z;
  subpageTarget : option (list string)
}.

Record ExaSearchRequest : Type := mkSearch {
  query : string;
  type : string;
  category : option string;
  includeDomains : option (list string);
  excludeDomains : option (list string);
  startPublishedDate : option string;
  endPublishedDate : option string;
  numResults : Z;
  contents : Contents
}.

Record ExaCrawlRequest : Type := mkCrawl {
  ids : list string;
  crawl_text : bool;
  crawl_livecrawl : livecrawl_t
}.

Inductive body : Type :=
| SearchBody (request : ExaSearchRequest)
| CrawlBody (request : ExaCrawlRequest).

End Exa.

(** ** What axios and the handlers settle with *)

Module Axios.

Record AxiosResponse : Type := mkResponse {
  status : Z;
  data : Js.value
}.

Inductive ErrorCode : Type := InvalidRequest | MethodNotFound | InvalidParams.

(** A thrown value: an axios error (the only kind [axios.isAxiosError]
    accepts) with the response it may carry, a protocol error of the
    framework, any other instance of [Error], or a value that is no
    [Error] at all. *)
Inductive Thrown : Type :=
| AxiosError (message : string) (response : option AxiosResponse)
| McpError (code : ErrorCode) (message : string)
| Error (message : string)
| Raw (v : Js.value).

(** The promise returned by [axiosInstance.post], once settled. *)
Inductive Upstream : Type :=
| Resolved (response : AxiosResponse)
| Rejected (error : Thrown).

Definition Post : Type := string -> Exa.body -> Upstream.

End Axios.

(** ** The tool handlers *)

Module Tools.

Import Js Exa Axios.

Record ContentItem : Type := mkText { item_type : string; item_text : string }.

Definition text_item (s : string) : ContentItem := mkText "text" s.

(** The value a handler resolves with. [isError] is [None] when the
    object literal has no such key. *)
Record CallToolResult : Type := mkResult {
  content : list ContentItem;
  isError : option bool
}.

(** How the promise of a handler settles. *)
Inductive Settled : Type :=
| Returned (result : CallToolResult)
| Threw (error : Thrown).

(** The arguments object a handler destructures, after the framework
    validated it against the schema of the tool; a key the caller left
    out is [None]. *)
Module Arg.
Record t : Type := mk {
  query : string;
  url : string;
  numResults : option Z;
  subpages : option Z;
  subpageTarget : option (list string);
  excludeDomain : option string;
  startPublishedDate : option string;
  endPublishedDate : option string;
  type : option string;
  category : option string;
  includeDomains : option (list string);
  excludeDomains : option (list string);
  livecrawl : option livecrawl_t
}.

(** The same arguments with the [numResults] key set or left out. *)
Definition with_numResults (n : option Z) (args : t) : t :=
  mk (query args) (url args) n (subpages args) (subpageTarget args)
     (excludeDomain args) (startPublishedDate args) (endPublishedDate args)
     (type args) (category args) (includeDomains args) (excludeDomains args)
     (livecrawl args).
End Arg.

(** [API_CONFIG] of [tools/config.ts]. *)
Module API_CONFIG.
Definition BASE_URL : string := "https://api.exa.ai".
Definition SEARCH : string := "/search".
Definition DEFAULT_NUM_RESULTS : Z := 5.
Definition DEFAULT_MAX_CHARACTERS : Z := 3000.
End API_CONFIG.

(** [n || d] for an optional number [n]. *)
Definition number_or (n : option Z) (d : Z) : Z :=
  match n with
  | Some v => if v =? 0 then d else v
  | None => d
  end.

(** [s || d] and the test [if (s)] for an optional string [s]. *)
Definition string_truthy (s : option string) : bool :=
  match s with
  | Some (String _ _) => true
  | _ => false
  end.

Definition string_or (s : option string) (d : string) : string :=
  match s with
  | Some (String c rest) => String c rest
  | _ => d
  end.

(** [error.response?.status || 'unknown'], as the template literal
    prints it. *)
Definition statusCode (response : option AxiosResponse) : string :=
  match response with
  | Some r => if status r =? 0 then "unknown" else num_to_string (status r)
  | None => "unknown"
  end.

(** [error.response?.data?.message] *)
Definition upstream_message (response : option AxiosResponse) : value :=
  match response with
  | Some r => get_opt (data r) "message"
  | None => Undefined
  end.

(** [error.response?.data?.message || error.message], as printed. *)
Definition errorMessage (message : string) (response : option AxiosResponse) : string :=
  to_string (or_else (upstream_message response) (Str message)).

(** [error instanceof Error ? error.message : String(error)] *)
Definition error_text (error : Thrown) : string :=
  match error with
  | AxiosError message _ | McpError _ message | Error message => message
  | Raw v => to_string v
  end.

(** The [catch] block shared, up to the label, by every registry
    handler and by the 0.2.1 search tool. *)
Definition catch_block (label : string) (error : Thrown) : CallToolResult :=
  match error with
  | AxiosError message response =>
      mkResult
        [text_item (label +:+ " (" +:+ statusCode response +:+ "): "
                    +:+ errorMessage message response)]
        (Some true)
  | _ => mkResult [text_item (label +:+ ": " +:+ error_text error)] (Some true)
  end.

(** The test [!response.data || !response.data.results]. *)
Definition empty_or_invalid (response : AxiosResponse) : bool :=
  negb (truthy (data response)) || negb (truthy (get (data response) "results")).

(** [v.length], for a truthy [v]. *)
Definition length_of (v : value) : value :=
  match v with
  | Arr items => Num (Z.of_nat (length items))
  | Str s => Num (Z.of_nat (String.length s))
  | Obj props => lookup_prop "length" props
  | _ => Undefined
  end.

Definition is_zero (v : value) : bool :=
  match v with
  | Num n => n =? 0
  | _ => false
  end.

(** What follows the POST in the [try] block of a search handler. *)
Definition relay (noResults : string) (response : AxiosResponse) : CallToolResult :=
  if empty_or_invalid response
  then mkResult [text_item noResults] None
  else mkResult [text_item (JSON_stringify (data response))] None.

(** The contents object every registry search handler starts from. *)
Definition default_text : text_t :=
  TextOptions (Some API_CONFIG.DEFAULT_MAX_CHARACTERS).

(** *** web_search *)

Definition web_search_request (args : Arg.t) : ExaSearchRequest :=
  {| query := Arg.query args;
     type := "auto";
     category := None;
     includeDomains := None;
     excludeDomains := None;
     startPublishedDate := None;
     endPublishedDate := None;
     numResults := number_or (Arg.numResults args) API_CONFIG.DEFAULT_NUM_RESULTS;
     contents := mkContents default_text (Some always) None None |}.

Definition web_search (post : Post) (args : Arg.t) : Settled :=
  match post API_CONFIG.SEARCH (SearchBody (web_search_request args)) with
  | Resolved response =>
      Returned (relay "No search results found. Please try a different query." response)
  | Rejected error => Returned (catch_block "Search error" error)
  end.

(** *** research_paper_search *)

Definition research_paper_search_request (args : Arg.t) : ExaSearchRequest :=
  {| query := Arg.query args;
     type := "auto";
     category := Some "research paper";
     includeDomains := None;
     excludeDomains := None;
     startPublishedDate := None;
     endPublishedDate := None;
     numResults := number_or (Arg.numResults args) API_CONFIG.DEFAULT_NUM_RESULTS;
     contents := mkContents default_text (Some fallback) None None |}.

Definition research_paper_search (post : Post) (args : Arg.t) : Settled :=
  match post API_CONFIG.SEARCH (SearchBody (research_paper_search_request args)) with
  | Resolved response =>
      Returned (relay "No research papers found. Please try a different query." response)
  | Rejected error => Returned (catch_block "Research paper search error" error)
  end.

(** *** twitter_search *)

Definition twitter_search_request (args : Arg.t) : ExaSearchRequest :=
  {| query := Arg.query args;
     type := "auto";
     category := None;
     includeDomains := Some ["x.com"; "twitter.com"];
     excludeDomains := None;
     startPublishedDate :=
       if string_truthy (Arg.startPublishedDate args)
       then Arg.startPublishedDate args else None;
     endPublishedDate :=
       if string_truthy (Arg.endPublishedDate args)
       then Arg.endPublishedDate args else None;
     numResults := number_or (Arg.numResults args) API_CONFIG.DEFAULT_NUM_RESULTS;
     contents := mkContents default_text (Some always) None None |}.

Definition twitter_search (post : Post) (args : Arg.t) : Settled :=
  match post API_CONFIG.SEARCH (SearchBody (twitter_search_request args)) with
  | Resolved response =>
      Returned (relay "No Twitter results found. Please try a different query." response)
  | Rejected error => Returned (catch_block "Twitter search error" error)
  end.

(** *** company_research

    The handler also derives a [domain] from the query; it only goes
    into a log line, the request takes the query as it came. *)

Definition company_research_request (args : Arg.t) : ExaSearchRequest :=
  {| query := Arg.query args;
     type := "auto";
     category := Some "company";
     includeDomains := Some [Arg.query args];
     excludeDomains := None;
     startPublishedDate := None;
     endPublishedDate := None;
     numResults := 1;
     contents :=
       mkContents default_text (Some always)
         (Some (number_or (Arg.subpages args) 10))
         (match Arg.subpageTarget args with
          | Some (t :: ts) => Some (t :: ts)
          | _ => None
          end) |}.

Definition company_research (post : Post) (args : Arg.t) : Settled :=
  match post API_CONFIG.SEARCH (SearchBody (company_research_request args)) with
  | Resolved response =>
      Returned (relay "No company information found. Please try a different query." response)
  | Rejected error => Returned (catch_block "Company research error" error)
  end.

(** *** competitor_finder *)

Definition competitor_finder_request (args : Arg.t) : ExaSearchRequest :=
  {| query := Arg.query args;
     type := "auto";
     category := None;
     includeDomains := None;
     excludeDomains :=
       match Arg.excludeDomain args with
       | Some (String c rest) => Some [String c rest]
       | _ => None
       end;
     startPublishedDate := None;
     endPublishedDate := None;
     numResults := number_or (Arg.numResults args) 10;
     contents := mkContents default_text (Some always) None None |}.

Definition competitor_finder (post : Post) (args : Arg.t) : Settled :=
  match post API_CONFIG.SEARCH (SearchBody (competitor_finder_request args)) with
  | Resolved response =>
      Returned (relay "No competitors found. Please try a different query." response)
  | Rejected error => Returned (catch_block "Competitor finder error" error)
  end.

(** *** exa_search

    [API_CONFIG.DEFAULT_TYPE] belongs to a configuration module that is
    not among the sources; it is a parameter here. *)

Definition exa_search_request (DEFAULT_TYPE : string) (args : Arg.t) : ExaSearchRequest :=
  {| query := Arg.query args;
     type := string_or (Arg.type args) DEFAULT_TYPE;
     category :=
       if string_truthy (Arg.category args) then Arg.category args else None;
     includeDomains := Arg.includeDomains args;
     excludeDomains := Arg.excludeDomains args;
     startPublishedDate := None;
     endPublishedDate := None;
     numResults := number_or (Arg.numResults args) API_CONFIG.DEFAULT_NUM_RESULTS;
     contents := mkContents default_text (Some always) None None |}.

Definition exa_search (DEFAULT_TYPE : string) (post : Post) (args : Arg.t) : Settled :=
  match post API_CONFIG.SEARCH (SearchBody (exa_search_request DEFAULT_TYPE args)) with
  | Resolved response =>
      Returned (relay "No search results found. Please try a different query." response)
  | Rejected error => Returned (catch_block "Search error" error)
  end.

(** *** crawling *)

Definition crawling_request (args : Arg.t) : ExaCrawlRequest :=
  {| ids := [Arg.url args]; crawl_text := true; crawl_livecrawl := always |}.

(** The test [!response.data || !response.data.results ||
    response.data.results.length === 0]. *)
Definition nothing_crawled (response : AxiosResponse) : bool :=
  empty_or_invalid response || is_zero (length_of (get (data response) "results")).

Definition crawling (post : Post) (args : Arg.t) : Settled :=
  match post "/contents" (CrawlBody (crawling_request args)) with
  | Resolved response =>
      Returned
        (if nothing_crawled response
         then mkResult
                [text_item "No content found at the specified URL. Please check the URL and try again."]
                None
         else mkResult [text_item (JSON_stringify (data response))] None)
  | Rejected error => Returned (catch_block "Crawling error" error)
  end.

(** *** search, the one tool of the 0.2.1 entry point

    Its [finally] block removes the request id it added to
    [activeRequests] on entry and logs; the settled value is that of the
    [try] or [catch] block. *)

Definition search_request (args : Arg.t) : ExaSearchRequest :=
  {| query := Arg.query args;
     type := "auto";
     category := None;
     includeDomains := None;
     excludeDomains := None;
     startPublishedDate := None;
     endPublishedDate := None;
     numResults := number_or (Arg.numResults args) 5;
     contents :=
       mkContents (TextOptions (Some 3000))
         (match Arg.livecrawl args with
          | Some l => Some l
          | None => Some always
          end) None None |}.

Definition search (post : Post) (args : Arg.t) : Settled :=
  match post "/search" (SearchBody (search_request args)) with
  | Resolved response =>
      Returned (relay "No search results found. Please try a different query." response)
  | Rejected error => Returned (catch_block "Search error" error)
  end.

(** *** The handlers side by side

    Every handler above has one shape: build a body, POST it once, turn
    the settled promise into a result. [handler_of] names the handlers,
    [posted] the endpoint and body each one sends, [error_label] and
    [no_results_text] the two literals in which they differ. *)

Inductive tool_name : Type :=
| web_search_name
| research_paper_search_name
| twitter_search_name
| company_research_name
| competitor_finder_name
| crawling_name
| exa_search_name (DEFAULT_TYPE : string)
| search_name.

Definition handler_of (t : tool_name) : Post -> Arg.t -> Settled :=
  match t with
  | web_search_name => web_search
  | research_paper_search_name => research_paper_search
  | twitter_search_name => twitter_search
  | company_research_name => company_research
  | competitor_finder_name => competitor_finder
  | crawling_name => crawling
  | exa_search_name DEFAULT_TYPE => exa_search DEFAULT_TYPE
  | search_name => search
  end.

Definition posted (t : tool_name) (args : Arg.t) : string * body :=
  match t with
  | web_search_name => (API_CONFIG.SEARCH, SearchBody (web_search_request args))
  | research_paper_search_name =>
      (API_CONFIG.SEARCH, SearchBody (research_paper_search_request args))
  | twitter_search_name => (API_CONFIG.SEARCH, SearchBody (twitter_search_request args))
  | company_research_name => (API_CONFIG.SEARCH, SearchBody (company_research_request args))
  | competitor_finder_name =>
      (API_CONFIG.SEARCH, SearchBody (competitor_finder_request args))
  | crawling_name => ("/contents", CrawlBody (crawling_request args))
  | exa_search_name DEFAULT_TYPE =>
      (API_CONFIG.SEARCH, SearchBody (exa_search_request DEFAULT_TYPE args))
  | search_name => ("/search", SearchBody (search_request args))
  end.

Definition error_label (t : tool_name) : string :=
  match t with
  | web_search_name | exa_search_name _ | search_name => "Search error"
  | research_paper_search_name => "Research paper search error"
  | twitter_search_name => "Twitter search error"
  | company_research_name => "Company research error"
  | competitor_finder_name => "Competitor finder error"
  | crawling_name => "Crawling error"
  end.

Definition no_results_text (t : tool_name) : string :=
  match t with
  | web_search_name | exa_search_name _ | search_name =>
      "No search results found. Please try a different query."
  | research_paper_search_name =>
      "No research papers found. Please try a different query."
  | twitter_search_name => "No Twitter results found. Please try a different query."
  | company_research_name =>
      "No company information found. Please try a different query."
  | competitor_finder_name => "No competitors found. Please try a different query."
  | crawling_name =>
      "No content found at the specified URL. Please check the URL and try again."
  end.

(** The message a [catch] block reports for a thrown value. *)
Definition reported_message (error : Thrown) : string :=
  match error with
  | AxiosError message response => errorMessage message response
  | _ => error_text error
  end.

(** *** The registry the tool modules build *)

Inductive Zod : Type :=
| z_string
| z_number
| z_array (item : Zod)
| z_optional (inner : Zod).

Definition Schema : Type := list (string * Zod).
Definition Handler : Type := Post -> Arg.t -> Settled.
Definition Tool : Type := Registry.ToolRegistry Schema Handler.

Definition web_search_tool : Tool :=
  Registry.mkTool "web_search"
    "Search the web using Exa AI - performs real-time web searches and can scrape content from specific URLs. Supports configurable result counts and returns the content from the most relevant websites."
    [("query", z_string); ("numResults", z_optional z_number)]
    web_search true.

Definition research_paper_search_tool : Tool :=
  Registry.mkTool "research_paper_search"
    "Search for research papers using Exa AI - performs targeted academic paper searches with a focus on research content. Returns detailed information about relevant academic papers including titles, authors, publication dates, and content excerpts."
    [("query", z_string); ("numResults", z_optional z_number)]
    research_paper_search true.

Definition twitter_search_tool : Tool :=
  Registry.mkTool "twitter_search"
    "Search Twitter/X.com posts and accounts using Exa AI - performs targeted searches of Twitter (X.com) content including tweets, profiles, and discussions. Returns relevant tweets, profile information, and conversation threads based on your query. You can search for a user by x.com/username or from:username"
    [("query", z_string); ("numResults", z_optional z_number);
     ("startPublishedDate", z_optional z_string);
     ("endPublishedDate", z_optional z_string)]
    twitter_search false.

Definition company_research_tool : Tool :=
  Registry.mkTool "company_research"
    "Research companies using Exa AI - performs targeted searches of company websites to gather comprehensive information about businesses. Returns detailed information from company websites including about pages, pricing, FAQs, blogs, and other relevant content. Specify the company URL and optionally target specific sections of their website."
    [("query", z_string); ("subpages", z_optional z_number);
     ("subpageTarget", z_optional (z_array z_string))]
    company_research false.

Definition crawling_tool : Tool :=
  Registry.mkTool "crawling"
    "Extract content from specific URLs using Exa AI - performs targeted crawling of web pages to retrieve their full content. Useful for reading articles, PDFs, or any web page when you have the exact URL. Returns the complete text content of the specified URL."
    [("url", z_string)]
    crawling false.

Definition competitor_finder_tool : Tool :=
  Registry.mkTool "competitor_finder"
    "Find competitors of a company using Exa AI - performs targeted searches to identify businesses that offer similar products or services. Describe what the company does (without mentioning its name) and optionally provide the company's website to exclude it from results."
    [("query", z_string); ("excludeDomain", z_optional z_string);
     ("numResults", z_optional z_number)]
    competitor_finder false.

(** The registry after the imports of [tools/index.ts], in their order;
    the five ids are ordinary ones. *)
Definition toolRegistry : Registry.registry Schema Handler :=
  Registry.register "crawling" crawling_tool
    (Registry.register "company_research" company_research_tool
       (Registry.register "twitter_search" twitter_search_tool
          (Registry.register "research_paper_search" research_paper_search_tool
             (Registry.register "web_search" web_search_tool [])))).

End Tools.

(** ** The 0.1.0 server: one search tool and a cache of recent searches *)

Module Legacy.

Import Js Exa Axios Tools.

Definition DEFAULT_NUM_RESULTS : Z := 10.
Definition MAX_CACHED_SEARCHES : nat := 5.

Record CachedSearch : Type := mkCached {
  cached_query : string;
  response : value;
  timestamp : string
}.

(** [isValidSearchArgs] of [types.ts]. *)
Definition isValidSearchArgs (args : value) : bool :=
  match args with
  | Obj props =>
      match lookup_prop "query" props with
      | Str _ =>
          match lookup_prop "numResults" props with
          | Undefined | Num _ => true
          | _ => false
          end
      | _ => false
      end
  | _ => false
  end.

(** [recentSearches.unshift(entry)], then [recentSearches.pop()] when
    the length exceeds [MAX_CACHED_SEARCHES]. *)
Definition cache_search (entry : CachedSearch) (recentSearches : list CachedSearch)
    : list CachedSearch :=
  let unshifted := entry :: recentSearches in
  if (MAX_CACHED_SEARCHES <? length unshifted)%nat
  then removelast unshifted
  else unshifted.

Definition searchRequest_of (arguments : value) : ExaSearchRequest :=
  {| query := to_string (get arguments "query");
     type := "auto";
     category := None;
     includeDomains := None;
     excludeDomains := None;
     startPublishedDate := None;
     endPublishedDate := None;
     numResults :=
       match or_else (get arguments "numResults") (Num DEFAULT_NUM_RESULTS) with
       | Num n => n
       | _ => DEFAULT_NUM_RESULTS
       end;
     contents := mkContents (TextFlag true) None None None |}.

(** The [CallToolRequestSchema] handler: [now] is what
    [new Date().toISOString()] gives, [recentSearches] the cache before
    the call; the cache after the call comes back with the settled
    value. *)
Definition callTool (post : Post) (now : string) (recentSearches : list CachedSearch)
    (name : string) (arguments : value) : list CachedSearch * Settled :=
  if negb (String.eqb name "search")
  then (recentSearches, Threw (McpError MethodNotFound ("Unknown tool: " +:+ name)))
  else if negb (isValidSearchArgs arguments)
  then (recentSearches, Threw (McpError InvalidParams "Invalid search arguments"))
  else
    let searchRequest := searchRequest_of arguments in
    match post "/search" (SearchBody searchRequest) with
    | Resolved response =>
        (cache_search (mkCached (query searchRequest) (data response) now) recentSearches,
         Returned (mkResult [text_item (JSON_stringify (data response))] None))
    | Rejected (AxiosError message response) =>
        (recentSearches,
         Returned
           (mkResult
              [text_item ("Exa API error: "
                          +:+ to_string (coalesce (upstream_message response) (Str message)))]
              (Some true)))
    | Rejected error => (recentSearches, Threw error)
    end.

End Legacy.

(** ** Diagnostics: the logger and the lines a handler writes *)

Module Logger.

Import Js Exa Axios Tools.

(** The line [log(message)] hands to [console.error]. *)
Definition log (message : string) : string := "[EXA-MCP-DEBUG] " +:+ message.

(** What the methods of [createRequestLogger(requestId, toolName)]
    put in front of their message. *)
Definition tag (requestId toolName : string) : string :=
  "[" +:+ requestId +:+ "] [" +:+ toolName +:+ "] ".

(** What every line of a request logger starts with: the debug marker
    and the tag. *)
Definition line_head (requestId toolName : string) : string :=
  "[EXA-MCP-DEBUG] " +:+ tag requestId toolName.

(** The line written by each of the four methods [log], [start],
    [error] and [complete] of a request logger. *)
Definition request_log (requestId toolName message : string) : string :=
  log (tag requestId toolName +:+ message).

Definition request_start (requestId toolName query : string) : string :=
  log (tag requestId toolName +:+ "Starting search for query: "
       +:+ String Text.quote (query +:+ String Text.quote EmptyString)).

Definition request_error (requestId toolName : string) (error : Thrown) : string :=
  log (tag requestId toolName +:+ "Error: " +:+ error_text error).

Definition request_complete (requestId toolName : string) : string :=
  log (tag requestId toolName +:+ "Successfully completed request").

(** The request id of a web search: [now] is [Date.now()], [suffix] the
    characters taken from [Math.random().toString(36)]. *)
Definition web_search_requestId (now : Z) (suffix : string) : string :=
  "web_search-" +:+ num_to_string now +:+ "-" +:+ suffix.

(** The handler of [web_search] once more, this time with the lines it
    writes to the error stream, in order, beside the value it settles
    with. (The length in the fourth line counts the characters of the
    model when [results] is a string.) *)
Definition web_search_logged (now : Z) (suffix : string) (post : Post) (args : Arg.t)
    : list string * Settled :=
  let requestId := web_search_requestId now suffix in
  let say := request_log requestId "web_search" in
  let begun :=
    [request_start requestId "web_search" (Arg.query args);
     say "Sending request to Exa API"] in
  match post API_CONFIG.SEARCH (SearchBody (web_search_request args)) with
  | Resolved response =>
      let received := begun ++ [say "Received response from Exa API"] in
      if empty_or_invalid response
      then (received ++ [say "Warning: Empty or invalid response from Exa API"],
            Returned
              (mkResult
                 [text_item "No search results found. Please try a different query."]
                 None))
      else (received
            ++ [say ("Found "
                     +:+ to_string (length_of (get (data response) "results"))
                     +:+ " results");
                request_complete requestId "web_search"],
            Returned (mkResult [text_item (JSON_stringify (data response))] None))
  | Rejected error =>
      let failed := begun ++ [request_error requestId "web_search" error] in
      match error with
      | AxiosError message response =>
          (failed
           ++ [say ("Axios error (" +:+ statusCode response +:+ "): "
                    +:+ errorMessage message response)],
           Returned
             (mkResult
                [text_item ("Search error (" +:+ statusCode response +:+ "): "
                            +:+ errorMessage message response)]
                (Some true)))
      | _ =>
          (failed,
           Returned (mkResult [text_item ("Search error: " +:+ error_text error)] (Some true)))
      end
  end.

End Logger.

(** ** The resources of the 0.1.0 server: listing and reading the cache *)

Module Resources.

Import Js Exa Axios Tools Legacy.

Record Resource : Type := mkResource {
  uri : string;
  name : string;
  mimeType : string;
  description : string
}.

Definition uri_prefix : string := "exa://searches/".

(** The [ListResourcesRequestSchema] handler: one resource for each
    cached search, the index in the uri. *)
Definition listResources (recentSearches : list CachedSearch) : list Resource :=
  imap
    (fun index search =>
       mkResource
         (uri_prefix +:+ num_to_string (Z.of_nat index))
         ("Recent search: " +:+ cached_query search)
         "application/json"
         ("Search results for: " +:+ cached_query search
          +:+ " (" +:+ timestamp search +:+ ")"))
    recentSearches.

Fixpoint strip_prefix (p s : string) : option string :=
  match p with
  | EmptyString => Some s
  | String a p' =>
      match s with
      | String b s' => if Ascii.eqb a b then strip_prefix p' s' else None
      | EmptyString => None
      end
  end.

(** The class [\d] of the regular expression. *)
Definition is_digit (c : ascii) : bool :=
  (48 <=? nat_of_ascii c)%nat && (nat_of_ascii c <=? 57)%nat.

Fixpoint all_digits (s : string) : bool :=
  match s with
  | EmptyString => true
  | String c rest => is_digit c && all_digits rest
  end.

(** [uri.match(/^exa:\/\/searches\/(\d+)$/)]: the digits captured, when
    the uri has that form. *)
Definition match_uri (uri : string) : option string :=
  match strip_prefix uri_prefix uri with
  | Some (String c rest) =>
      if all_digits (String c rest) then Some (String c rest) else None
  | _ => None
  end.

(** [parseInt] on a run of decimal digits (exact, where JavaScript
    rounds from 2^53 on; such an index is out of range either way). *)
Definition parseInt (digits : string) : Z :=
  match NilEmpty.uint_of_string digits with
  | Some d => Z.of_uint d
  | None => 0
  end.

Record ResourceContents : Type := mkRead {
  contents_uri : string;
  contents_mimeType : string;
  contents_text : string
}.

Inductive ReadSettled : Type :=
| ReadReturned (contents : list ResourceContents)
| ReadThrew (error : Thrown).

(** The [ReadResourceRequestSchema] handler. *)
Definition readResource (recentSearches : list CachedSearch) (uri : string)
    : ReadSettled :=
  match match_uri uri with
  | None => ReadThrew (McpError InvalidRequest ("Unknown resource: " +:+ uri))
  | Some digits =>
      let index := parseInt digits in
      match recentSearches !! Z.to_nat index with
      | None =>
          ReadThrew
            (McpError InvalidRequest
               ("Search result not found: " +:+ num_to_string index))
      | Some search =>
          ReadReturned
            [mkRead uri "application/json" (JSON_stringify (response search))]
      end
  end.

(** One tool call as the server receives it: the upstream it meets, the
    clock, and the name and arguments of the request. *)
Record Call : Type := mkCall {
  call_post : Post;
  call_now : string;
  call_name : string;
  call_arguments : value
}.

(** The cache after the server handled [calls] one after the other. *)
Definition serve (calls : list Call) (recentSearches : list CachedSearch)
    : list CachedSearch :=
  fold_left
    (fun cache call =>
       (callTool (call_post call) (call_now call) cache
          (call_name call) (call_arguments call)).1)
    calls recentSearches.

(** The entry a call adds to the cache: there is one exactly when the
    call names the search tool, its arguments are valid and the upstream
    resolves. *)
Definition cached_entry (call : Call) : option CachedSearch :=
  if String.eqb (call_name call) "search" && isValidSearchArgs (call_arguments call)
  then
    match call_post call "/search" (SearchBody (searchRequest_of (call_arguments call))) with
    | Resolved response =>
        Some (mkCached (query (searchRequest_of (call_arguments call)))
                (data response) (call_now call))
    | Rejected _ => None
    end
  else None.

End Resources.

(** ** Concrete inputs used by the closed instances of the theorems *)

Module Samples.

Import Js Exa Axios Tools.

(** A registry of two tools, A enabled by default and B not. *)
Definition tool_A : Registry.ToolRegistry unit unit :=
  Registry.mkTool "Tool A" "first tool" tt tt true.
Definition tool_B : Registry.ToolRegistry unit unit :=
  Registry.mkTool "Tool B" "second tool" tt tt false.
Definition registry_AB : Registry.registry unit unit :=
  [("A", tool_A); ("B", tool_B)].

(** The call [{ query: 'exa.ai' }], every optional key left out. *)
Definition args_exa_ai : Arg.t :=
  Arg.mk "exa.ai" "exa.ai" None None None None None None None None None None None.

(** The same call with [subpages: 0]. *)
Definition args_zero_subpages : Arg.t :=
  Arg.mk "exa.ai" "exa.ai" None (Some 0) None None None None None None None None None.

(** An upstream that answers every request with status 200 and the body
    [{ results: [] }]. *)
Definition empty_results : value := Obj [("results", Arr [])].
Definition answers_empty : Post :=
  fun _ _ => Resolved (mkResponse 200 empty_results).

(** An upstream that rejects every request with HTTP 429. *)
Definition rate_limited : Thrown :=
  AxiosError "Request failed with status code 429"
    (Some (mkResponse 429 (Obj [("message", Str "rate limit exceeded")]))).
Definition answers_429 : Post := fun _ _ => Rejected rate_limited.

(** An upstream call that fails with an error that is no axios error. *)
Definition answers_boom : Post := fun _ _ => Rejected (Error "boom").

(** Valid arguments of the 0.1.0 search tool, and a full cache. *)
Definition legacy_args : value := Obj [("query", Str "q")].
Definition cached (q : string) : Legacy.CachedSearch :=
  Legacy.mkCached q Null "2025-01-01T00:00:00.000Z".
Definition full_cache : list Legacy.CachedSearch :=
  [cached "e"; cached "d"; cached "c"; cached "b"; cached "a"].

End Samples.

(** * Properties *)

(** ** Strings *)

Section TextFacts.

Import Text.

Lemma append_nil_r (s : string) : s +:+ EmptyString = s.
Proof.
  induction s as [|c s IH]; [reflexivity|].
  change (String c (s +:+ EmptyString) = String c s). by rewrite IH.
Qed.

Lemma append_assoc (a b c : string) : (a +:+ b) +:+ c = a +:+ (b +:+ c).
Proof.
  induction a as [|x a IH]; [reflexivity|].
  change (String x ((a +:+ b) +:+ c) = String x (a +:+ (b +:+ c))). by rewrite IH.
Qed.

Lemma prefix_append (sub rest : string) : String.prefix sub (sub +:+ rest) = true.
Proof.
  induction sub as [|c sub IH].
  - by destruct rest.
  - change (String.prefix (String c sub) (String c (sub +:+ rest)) = true).
    cbn. destruct (ascii_dec c c); [exact IH | congruence].
Qed.

Lemma prefix_split (sub s : string) :
  String.prefix sub s = true -> exists rest, s = sub +:+ rest.
Proof.
  revert s. induction sub as [|c sub IH]; intros s H.
  - by exists s.
  - destruct s as [|d s]; cbn in H; [discriminate|].
    destruct (ascii_dec c d) as [->|]; [|discriminate].
    destruct (IH s H) as [rest ->]. by exists rest.
Qed.

Lemma includes_unfold (sub s : string) :
  includes sub s =
  String.prefix sub s
  || match s with EmptyString => false | String _ s' => includes sub s' end.
Proof. by destruct s. Qed.

Lemma includes_contains (sub s : string) :
  includes sub s = true <-> contains sub s.
Proof.
  split.
  - induction s as [|c s IH]; rewrite includes_unfold, orb_true_iff; intros [H|H].
    + destruct (prefix_split _ _ H) as [rest ->]. by exists EmptyString, rest.
    + discriminate.
    + destruct (prefix_split _ _ H) as [rest ->]. by exists EmptyString, rest.
    + destruct (IH H) as (pre & post & ->). by exists (String c pre), post.
  - intros (pre & post & ->).
    induction pre as [|c pre IH].
    + change (includes sub (sub +:+ post) = true).
      by rewrite includes_unfold, prefix_append.
    + change (includes sub (String c (pre +:+ sub +:+ post)) = true).
      by rewrite includes_unfold, IH, orb_true_r.
Qed.

Lemma contains_suffix (pre sub : string) : contains sub (pre +:+ sub).
Proof. exists pre, EmptyString. by rewrite append_nil_r. Qed.

Lemma contains_middle (pre sub post : string) : contains sub (pre +:+ sub +:+ post).
Proof. by exists pre, post. Qed.

Lemma contains_empty (s : string) : contains EmptyString s.
Proof. by exists EmptyString, s. Qed.

Lemma contains_refl (s : string) : contains s s.
Proof. exists EmptyString, EmptyString. by rewrite append_nil_r. Qed.

Lemma contains_app_r (sub pre s : string) : contains sub s -> contains sub (pre +:+ s).
Proof.
  intros (a & b & ->). exists (pre +:+ a), b. by rewrite append_assoc.
Qed.

Lemma contains_app_l (sub s post : string) : contains sub s -> contains sub (s +:+ post).
Proof.
  intros (a & b & ->). exists a, (b +:+ post). by rewrite !append_assoc.
Qed.

End TextFacts.

Create HintDb text.

#[local] Hint Resolve contains_refl contains_app_r contains_app_l contains_empty : text.

(** ** The registry and the selectors *)

Section SelectorFacts.

Import Registry.

Context {Schema Handler : Type}.

Abbreviation registry := (registry Schema Handler).
Abbreviation McpServer := (McpServer Schema Handler).
Abbreviation Tool := (ToolRegistry Schema Handler).

Implicit Types (reg : registry) (server : McpServer) (tool : Tool).
Implicit Types (inc exc : gset string) (id : string) (entry : string * Tool).

(** What [register] leaves behind. *)
Lemma register_cons id tool k old reg :
  register id tool ((k, old) :: reg)
  = if String.eqb k id then (k, tool) :: reg else (k, old) :: register id tool reg.
Proof. reflexivity. Qed.

Lemma register_keys id tool reg :
  (register id tool reg).*1 = if bool_decide (id ∈ reg.*1) then reg.*1 else reg.*1 ++ [id].
Proof.
  induction reg as [|[k old] reg IH].
  - rewrite bool_decide_eq_false_2; [done | apply not_elem_of_nil].
  - rewrite register_cons. destruct (String.eqb k id) eqn:E.
    + apply String.eqb_eq in E as ->. rewrite !fmap_cons.
      rewrite bool_decide_eq_true_2; [done | by left].
    + apply String.eqb_neq in E. rewrite !fmap_cons, IH. cbn [fst].
      case_bool_decide as D.
      * rewrite bool_decide_eq_true_2; [done | by right].
      * rewrite bool_decide_eq_false_2; [done|].
        intros [->|?]%elem_of_cons; done.
Qed.

Lemma register_wf id tool reg : registry_wf reg -> registry_wf (register id tool reg).
Proof.
  unfold registry_wf. intros Hwf. rewrite register_keys.
  case_bool_decide as Hin; [done|].
  apply NoDup_app. split_and!; [done | | apply NoDup_singleton].
  intros x Hx ->%list_elem_of_singleton. done.
Qed.

Lemma register_lookup id tool reg : (id, tool) ∈ register id tool reg.
Proof.
  induction reg as [|[k old] reg IH]; simpl; [by left|].
  destruct (String.eqb k id) eqn:E.
  - apply String.eqb_eq in E as ->. by left.
  - by right.
Qed.

(** A loop that binds and records the entries a test accepts is a
    filter; both selectors are such loops. *)
Lemma selector_loop (should : string * Tool -> bool)
    (each : McpServer * list string -> string * Tool -> McpServer * list string) :
  (forall st entry,
      each st entry =
      if should entry then (server_tool st.1 entry.2, st.2 ++ [entry.1]) else st) ->
  forall entries server acc,
    fold_left each entries (server, acc)
    = (bind_all server (List.filter should entries),
       acc ++ (List.filter should entries).*1).
Proof.
  intros Heach. induction entries as [|entry entries IH]; intros server acc; simpl.
  - by rewrite app_nil_r.
  - rewrite Heach. simpl. destruct (should entry); simpl.
    + rewrite IH. unfold bind_all. simpl. by rewrite <- app_assoc.
    + apply IH.
Qed.

Lemma setupTools_filter reg inc server :
  setupTools reg inc server
  = (bind_all server (List.filter (setupTools_should inc) reg),
     (List.filter (setupTools_should inc) reg).*1).
Proof.
  unfold setupTools, Object_entries.
  rewrite (selector_loop (setupTools_should inc)); [done|].
  by intros st [toolId tool].
Qed.

Lemma registerEnabledTools_filter reg server inc exc :
  registerEnabledTools reg server inc exc
  = (bind_all server (List.filter (registerEnabledTools_should inc exc) reg),
     (List.filter (registerEnabledTools_should inc exc) reg).*1).
Proof.
  unfold registerEnabledTools, Object_entries.
  rewrite (selector_loop (registerEnabledTools_should inc exc)); [done|].
  by intros st [toolId tool].
Qed.

Lemma size_zero_empty inc : size inc = 0%nat <-> inc = ∅.
Proof.
  split.
  - intros E. by apply leibniz_equiv, size_empty_iff.
  - intros ->. apply size_empty.
Qed.

Lemma size_pos_nonempty inc : (0 < size inc)%nat <-> inc ≠ ∅.
Proof. rewrite <- size_zero_empty. lia. Qed.

Lemma setupTools_should_spec inc entry :
  setupTools_should inc entry = spec_marked inc ∅ entry.
Proof.
  unfold setupTools_should, spec_marked, spec_shouldEnable.
  rewrite (bool_decide_ext _ _ (size_pos_nonempty inc)).
  rewrite (bool_decide_eq_true_2 (entry.1 ∉ ∅)); [|set_solver].
  by rewrite andb_true_r.
Qed.

Lemma registerEnabledTools_should_spec inc exc entry :
  registerEnabledTools_should inc exc entry = spec_marked inc exc entry.
Proof.
  unfold registerEnabledTools_should, spec_marked, spec_shouldEnable.
  f_equal; [|by rewrite bool_decide_not].
  destruct (decide (inc = ∅)) as [->|Hne].
  - rewrite (bool_decide_eq_false_2 (entry.1 ∈ ∅)); [|set_solver].
    rewrite (bool_decide_eq_true_2 (size (∅ : gset string) = 0%nat)); [|apply size_empty].
    rewrite (bool_decide_eq_false_2 ((∅ : gset string) ≠ ∅)); [done | by intros []].
  - rewrite (bool_decide_eq_false_2 (size inc = 0%nat)); [|by rewrite size_zero_empty].
    rewrite (bool_decide_eq_true_2 (inc ≠ ∅)); [|done].
    by rewrite orb_false_r.
Qed.

Lemma spec_marked_true inc exc entry :
  spec_marked inc exc entry = true <->
  (if decide (inc = ∅) then enabled entry.2 = true else entry.1 ∈ inc)
  /\ entry.1 ∉ exc.
Proof.
  unfold spec_marked, spec_shouldEnable.
  rewrite andb_true_iff, bool_decide_eq_true.
  destruct (decide (inc = ∅)) as [->|Hne].
  - rewrite bool_decide_eq_false_2; [done | by intros []].
  - by rewrite bool_decide_eq_true_2, bool_decide_eq_true.
Qed.

Lemma elem_of_spec_selection inc exc reg id :
  id ∈ spec_selection inc exc reg <->
  exists tool, (id, tool) ∈ reg
    /\ (if decide (inc = ∅) then enabled tool = true else id ∈ inc)
    /\ id ∉ exc.
Proof.
  unfold spec_selection. rewrite list_elem_of_fmap. split.
  - intros ([id' tool] & -> & Hin).
    apply list_elem_of_In, filter_In in Hin as [Hin Hm].
    apply spec_marked_true in Hm as [? ?].
    exists tool. split_and!; [by apply list_elem_of_In | done | done].
  - intros (tool & Hin & Hsel & Hexc). exists (id, tool). split; [done|].
    apply list_elem_of_In, filter_In. split; [by apply list_elem_of_In|].
    by apply spec_marked_true.
Qed.

Lemma spec_selection_NoDup inc exc reg :
  registry_wf reg -> NoDup (spec_selection inc exc reg).
Proof.
  unfold registry_wf, spec_selection.
  induction reg as [|entry reg IH]; simpl; [constructor|].
  intros [Hnotin Hnd]%NoDup_cons.
  destruct (spec_marked inc exc entry); simpl; [|by apply IH].
  apply NoDup_cons. split; [|by apply IH].
  intros Hin. apply Hnotin.
  apply list_elem_of_fmap in Hin as (e & -> & He).
  apply list_elem_of_In, filter_In in He as [He _].
  apply list_elem_of_fmap. exists e. split; [done | by apply list_elem_of_In].
Qed.

Lemma setupTools_selection reg inc server :
  setupTools reg inc server
  = (bind_all server (List.filter (spec_marked inc ∅) reg), spec_selection inc ∅ reg).
Proof.
  rewrite setupTools_filter. unfold spec_selection.
  by rewrite (filter_ext _ _ (setupTools_should_spec inc)).
Qed.

Lemma registerEnabledTools_selection reg server inc exc :
  registerEnabledTools reg server inc exc
  = (bind_all server (List.filter (spec_marked inc exc) reg), spec_selection inc exc reg).
Proof.
  rewrite registerEnabledTools_filter. unfold spec_selection.
  by rewrite (filter_ext _ _ (registerEnabledTools_should_spec inc exc)).
Qed.

Lemma spec_selection_keys inc exc reg id :
  id ∈ spec_selection inc exc reg -> id ∈ reg.*1.
Proof.
  rewrite elem_of_spec_selection. intros (tool & Hin & _).
  apply list_elem_of_fmap. by exists (id, tool).
Qed.

End SelectorFacts.

(** ** The activation selector *)

Section SelectorClaims.

Import Registry.

Lemma filter_none {A : Type} (f : A -> bool) (l : list A) :
  (forall x, x ∈ l -> f x = false) -> List.filter f l = [].
Proof.
  induction l as [|x l IH]; intros H; simpl; [done|].
  rewrite (H x); [|by left]. apply IH. intros y Hy. apply H. by right.
Qed.

(** C1. Both selectors enable exactly the tools the selection algorithm
    of the specification prescribes. For every registry, include set and
    exclude set: the ids returned by [setupTools] are the selection with
    no exclusion, those returned by [registerEnabledTools] are the
    selection with the exclude set; an id is enabled iff it is a key of
    the registry whose tool is enabled by default (empty include set) or
    which belongs to the include set (non-empty include set), and, where
    an exclude set exists, is outside it; the tools bound into the
    server are those of the enabled entries; a registry with distinct
    keys enables no id twice. With tools A (enabled by default) and B
    (not enabled by default) the empty include set enables exactly A,
    and the include set {B} enables exactly B whatever B's flag. *)
Theorem activation_selector_prescribed {Schema Handler : Type}
    (reg : Registry.registry Schema Handler) (inc exc : gset string)
    (server : Registry.McpServer Schema Handler) :
  setupTools reg inc server
    = (bind_all server (List.filter (spec_marked inc ∅) reg), spec_selection inc ∅ reg)
  /\ registerEnabledTools reg server inc exc
    = (bind_all server (List.filter (spec_marked inc exc) reg), spec_selection inc exc reg)
  /\ (forall id,
        id ∈ (setupTools reg inc server).2 <->
        exists tool, (id, tool) ∈ reg
          /\ if decide (inc = ∅) then enabled tool = true else id ∈ inc)
  /\ (forall id,
        id ∈ (registerEnabledTools reg server inc exc).2 <->
        exists tool, (id, tool) ∈ reg
          /\ (if decide (inc = ∅) then enabled tool = true else id ∈ inc)
          /\ id ∉ exc)
  /\ (forall id, id ∈ exc -> id ∉ (registerEnabledTools reg server inc exc).2)
  /\ (registry_wf reg ->
        NoDup (setupTools reg inc server).2
        /\ NoDup (registerEnabledTools reg server inc exc).2)
  /\ (forall A B (a b : ToolRegistry Schema Handler),
        enabled a = true -> enabled b = false ->
        (setupTools [(A, a); (B, b)] ∅ server).2 = [A]
        /\ (registerEnabledTools [(A, a); (B, b)] server ∅ ∅).2 = [A])
  /\ (forall A B (a b : ToolRegistry Schema Handler),
        A <> B ->
        (setupTools [(A, a); (B, b)] {[B]} server).2 = [B]
        /\ (registerEnabledTools [(A, a); (B, b)] server {[B]} ∅).2 = [B]).
Proof.
  pose proof (@setupTools_selection Schema Handler) as Hsetup.
  pose proof (@registerEnabledTools_selection Schema Handler) as Hreg.
  split_and!.
  - apply Hsetup.
  - apply Hreg.
  - intros id. rewrite Hsetup. cbn [snd]. rewrite elem_of_spec_selection.
    split; intros (tool & ? & ?); exists tool.
    + naive_solver.
    + split_and!; [done | naive_solver | set_solver].
  - intros id. rewrite Hreg. cbn [snd]. apply elem_of_spec_selection.
  - intros id Hexc. rewrite Hreg. cbn [snd]. rewrite elem_of_spec_selection.
    naive_solver.
  - intros Hwf. rewrite Hsetup, Hreg. cbn [snd].
    split; by apply spec_selection_NoDup.
  - intros A B a b Ha Hb. rewrite Hsetup, Hreg. cbn [snd].
    unfold spec_selection. cbn [List.filter].
    assert (Hm : forall x t, @spec_marked Schema Handler ∅ ∅ (x, t) = enabled t).
    { intros x t. unfold spec_marked, spec_shouldEnable. cbn [fst snd].
      rewrite bool_decide_eq_false_2; [|by intros []].
      rewrite bool_decide_eq_true_2; [|set_solver].
      by rewrite andb_true_r. }
    by rewrite !Hm, Ha, Hb.
  - intros A B a b Hne. rewrite Hsetup, Hreg. cbn [snd].
    unfold spec_selection. cbn [List.filter].
    assert (Hm : forall x t,
      @spec_marked Schema Handler {[B]} ∅ (x, t) = bool_decide (x = B)).
    { intros x t. unfold spec_marked, spec_shouldEnable. cbn [fst snd].
      rewrite bool_decide_eq_true_2; [|set_solver].
      rewrite (bool_decide_eq_true_2 (x ∉ ∅)); [|set_solver].
      rewrite andb_true_r. apply bool_decide_ext. set_solver. }
    rewrite !Hm. rewrite bool_decide_eq_false_2; [|done].
    by rewrite bool_decide_eq_true_2.
Qed.

(** C1 at the registry of A and B. *)
Lemma activation_selector_prescribed_witness :
  (setupTools Samples.registry_AB ∅ []).2 = ["A"]
  /\ (setupTools Samples.registry_AB {["B"]} []).2 = ["B"]
  /\ NoDup (setupTools Samples.registry_AB ∅ []).2.
Proof.
  destruct (activation_selector_prescribed Samples.registry_AB ∅ ∅ [])
    as (_ & _ & _ & _ & _ & Hnd & HA & HB).
  split_and!.
  - apply (HA "A" "B" Samples.tool_A Samples.tool_B); reflexivity.
  - apply (HB "A" "B" Samples.tool_A Samples.tool_B). discriminate.
  - apply Hnd. unfold registry_wf. simpl.
    repeat constructor; [by intros ?%list_elem_of_singleton | by intros ?%elem_of_nil].
Defined.

(** C2. An id of the include set that is no key of the registry is
    ignored without any error: it is never enabled; when other ids
    remain in the include set the selection is the one made without it;
    when it is the only id nothing is enabled and nothing is bound, and
    the entry point started with [--tools X] and an API key reaches the
    serving state with an empty list of registered tools. *)
Theorem unknown_include_id_ignored {Schema Handler : Type}
    (reg : Registry.registry Schema Handler) (inc exc : gset string)
    (server : Registry.McpServer Schema Handler) (X : string) :
  X ∉ reg.*1 -> X ∈ inc ->
  (X ∉ (setupTools reg inc server).2)
  /\ (X ∉ (registerEnabledTools reg server inc exc).2)
  /\ (inc ∖ {[X]} <> ∅ ->
        setupTools reg inc server = setupTools reg (inc ∖ {[X]}) server
        /\ registerEnabledTools reg server inc exc
            = registerEnabledTools reg server (inc ∖ {[X]}) exc)
  /\ (inc = {[X]} ->
        setupTools reg inc server = (server, [])
        /\ registerEnabledTools reg server inc exc = (server, []))
  /\ (forall c key,
        main (mkArgv [X] false) (Some (String c key)) reg = Serving [] []).
Proof.
  intros Hnotin Hin.
  assert (Hkey : forall entry, entry ∈ reg -> entry.1 <> X).
  { intros entry He Heq. apply Hnotin. rewrite <- Heq.
    apply list_elem_of_fmap. by exists entry. }
  assert (Hnone : forall e,
    List.filter (@spec_marked Schema Handler {[X]} e) reg = []).
  { intros e. apply filter_none. intros entry He.
    unfold spec_marked, spec_shouldEnable.
    rewrite bool_decide_eq_true_2; [|set_solver].
    rewrite (bool_decide_eq_false_2 (entry.1 ∈ {[X]})); [done|].
    specialize (Hkey entry He). set_solver. }
  pose proof (@setupTools_selection Schema Handler) as Hs.
  pose proof (@registerEnabledTools_selection Schema Handler) as Hr.
  split_and!.
  - rewrite Hs. cbn [snd]. by intros ?%spec_selection_keys.
  - rewrite Hr. cbn [snd]. by intros ?%spec_selection_keys.
  - intros Hrest.
    assert (Hsame : forall e,
      List.filter (@spec_marked Schema Handler inc e) reg
      = List.filter (spec_marked (inc ∖ {[X]}) e) reg).
    { intros e. apply filter_ext_in. intros entry He%list_elem_of_In.
      unfold spec_marked, spec_shouldEnable. f_equal.
      rewrite (bool_decide_eq_true_2 (inc <> ∅)); [|set_solver].
      rewrite (bool_decide_eq_true_2 (inc ∖ {[X]} <> ∅)); [|done].
      apply bool_decide_ext. specialize (Hkey entry He). set_solver. }
    rewrite !Hs, !Hr. unfold spec_selection. by rewrite !Hsame.
  - intros ->. rewrite Hs, Hr. unfold spec_selection. by rewrite !Hnone.
  - intros c key. unfold main. cbn [list_tools tools].
    replace (list_to_set [X] : gset string) with ({[X]} : gset string) by set_solver.
    rewrite Hs. unfold spec_selection. by rewrite Hnone.
Qed.

(** C2 at the registry of A and B with the unknown id X. *)
Lemma unknown_include_id_ignored_witness :
  setupTools Samples.registry_AB {["X"]} [] = ([], [])
  /\ main (mkArgv ["X"] false) (Some "key") Samples.registry_AB = Serving [] [].
Proof.
  assert (Hnotin : "X" ∉ Samples.registry_AB.*1).
  { simpl. intros [?|[?|?%elem_of_nil]%elem_of_cons]%elem_of_cons; done. }
  assert (Hin : "X" ∈ ({["X"]} : gset string)) by set_solver.
  destruct (unknown_include_id_ignored Samples.registry_AB {["X"]} ∅ [] "X" Hnotin Hin)
    as (_ & _ & _ & Honly & Hmain).
  split.
  - by apply Honly.
  - apply Hmain.
Defined.

End SelectorClaims.

(** ** The handlers *)

Section HandlerClaims.

Import Js Exa Axios Tools.

(** Runs a handler on the settled request [H] describes. *)
Ltac handler_step H :=
  cbn [posted fst snd] in H;
  cbn [handler_of error_label no_results_text];
  unfold web_search, research_paper_search, twitter_search, company_research,
    competitor_finder, crawling, exa_search, search;
  rewrite H; reflexivity.

(** A handler looks at the upstream through the one request it posts. *)
Lemma handler_posts_once (t : tool_name) (post : Post) (args : Arg.t) :
  handler_of t post args
  = handler_of t (fun _ _ => post (posted t args).1 (posted t args).2) args.
Proof. by destruct t. Qed.

Lemma handler_rejected (t : tool_name) (post : Post) (args : Arg.t) (error : Thrown) :
  post (posted t args).1 (posted t args).2 = Rejected error ->
  handler_of t post args = Returned (catch_block (error_label t) error).
Proof. intros H. destruct t; handler_step H. Qed.

Lemma handler_resolved (t : tool_name) (post : Post) (args : Arg.t)
    (response : AxiosResponse) :
  post (posted t args).1 (posted t args).2 = Resolved response ->
  handler_of t post args
  = Returned
      (if (match t with crawling_name => nothing_crawled | _ => empty_or_invalid end)
            response
       then mkResult [text_item (no_results_text t)] None
       else mkResult [text_item (JSON_stringify (data response))] None).
Proof. intros H. destruct t; handler_step H. Qed.

Lemma statusCode_some (r : AxiosResponse) :
  status r <> 0 -> statusCode (Some r) = num_to_string (status r).
Proof. intros H. unfold statusCode. by apply Z.eqb_neq in H as ->. Qed.

Lemma errorMessage_string (message : string) (response : option AxiosResponse) (s : string) :
  upstream_message response = Str s ->
  Text.contains s (errorMessage message response).
Proof.
  intros H. unfold errorMessage, or_else. rewrite H.
  destruct s as [|c s]; cbn; auto with text.
Qed.

Lemma errorMessage_absent (message : string) (response : option AxiosResponse) :
  truthy (upstream_message response) = false ->
  errorMessage message response = message.
Proof. intros H. unfold errorMessage, or_else. by rewrite H. Qed.

(** C3, as the code has it. When the upstream answers [{ results: [] }]
    only the crawling handler returns its guidance text; every other
    handler takes the empty array for a result list, since an array is
    truthy, and relays the serialised body, in which no guidance text
    occurs. No handler sets [isError]. A body without [results] does
    get the guidance text from every handler. *)
Theorem empty_results_relayed_not_soft_empty (t : tool_name) (args : Arg.t) :
  handler_of t Samples.answers_empty args
  = Returned
      (mkResult
         [text_item
            (match t with
             | crawling_name => no_results_text t
             | _ => JSON_stringify Samples.empty_results
             end)]
         None)
  /\ Text.includes "No " (JSON_stringify Samples.empty_results) = false
  /\ ~ Text.contains (no_results_text t) (JSON_stringify Samples.empty_results)
  /\ (forall status,
        handler_of t (fun _ _ => Resolved (mkResponse status (Obj []))) args
        = Returned (mkResult [text_item (no_results_text t)] None)).
Proof.
  split_and!.
  - by destruct t.
  - reflexivity.
  - rewrite <- includes_contains. by destruct t.
  - intros status. by destruct t.
Qed.







End HandlerClaims.

(** ** The requests *)

Section RequestClaims.

Import Js Exa Axios Tools.

Lemma number_or_nonzero (n : option Z) (d : Z) : d <> 0 -> number_or n d <> 0.
Proof.
  intros Hd. unfold number_or. destruct n as [v|]; [|done].
  destruct (v =? 0) eqn:E; [done | by apply Z.eqb_neq].
Qed.

Lemma number_or_zero (d : Z) : number_or (Some 0) d = number_or None d.
Proof. reflexivity. Qed.




(** C7, the counterexample. A company-research call for exa.ai with
    [subpages: 0] posts a request with [contents.subpages] 10, which is
    not the value the caller provided. *)
Lemma company_research_zero_subpages :
  Arg.query Samples.args_zero_subpages = "exa.ai"
  /\ Arg.subpages Samples.args_zero_subpages = Some 0
  /\ subpages (contents (company_research_request Samples.args_zero_subpages)) = Some 10
  /\ subpages (contents (company_research_request Samples.args_zero_subpages))
     <> Arg.subpages Samples.args_zero_subpages.
Proof. by split_and!. Qed.

(** C7, amended. The request of a company-research call with query
    exa.ai has category company, includes the one domain exa.ai, and
    has [contents.subpages] equal to the provided value when that value
    is not 0, and equal to 10 when the argument is left out or is 0. *)
Theorem company_research_request_shape (args : Arg.t) :
  Arg.query args = "exa.ai" ->
  posted company_research_name args
  = ("/search", SearchBody (company_research_request args))
  /\ query (company_research_request args) = "exa.ai"
  /\ category (company_research_request args) = Some "company"
  /\ includeDomains (company_research_request args) = Some ["exa.ai"]
  /\ (forall n, Arg.subpages args = Some n -> n <> 0 ->
        subpages (contents (company_research_request args)) = Some n)
  /\ (Arg.subpages args = None \/ Arg.subpages args = Some 0 ->
        subpages (contents (company_research_request args)) = Some 10).
Proof.
  intros Hq. cbn. rewrite Hq. split_and!; try reflexivity.
  - intros n -> Hn. cbn. by apply Z.eqb_neq in Hn as ->.
  - by intros [-> | ->].
Qed.

(** C7, amended, at the call [{ query: 'exa.ai' }]. *)
Lemma company_research_request_shape_witness :
  category (company_research_request Samples.args_exa_ai) = Some "company"
  /\ includeDomains (company_research_request Samples.args_exa_ai) = Some ["exa.ai"]
  /\ subpages (contents (company_research_request Samples.args_exa_ai)) = Some 10.
Proof.
  destruct (company_research_request_shape Samples.args_exa_ai eq_refl)
    as (_ & _ & Hcategory & Hdomains & _ & Hdefault).
  split_and!; [exact Hcategory | exact Hdomains | apply Hdefault; by left].
Defined.

(** C10. Where the result count is [numResults || DEFAULT], a call with
    [numResults: 0] posts the very request of the call that leaves
    [numResults] out, with the default count of the tool (5, or 10 for
    the competitor finder and for the 0.1.0 search tool); no arguments
    make any of these requests ask for zero results. *)
Theorem zero_result_count_is_default (args : Arg.t) (DEFAULT_TYPE q : string)
    (arguments : value) :
  let zero := Arg.with_numResults (Some 0) args in
  let omitted := Arg.with_numResults None args in
  (web_search_request zero = web_search_request omitted
   /\ numResults (web_search_request zero) = 5)
  /\ (research_paper_search_request zero = research_paper_search_request omitted
      /\ numResults (research_paper_search_request zero) = 5)
  /\ (twitter_search_request zero = twitter_search_request omitted
      /\ numResults (twitter_search_request zero) = 5)
  /\ (competitor_finder_request zero = competitor_finder_request omitted
      /\ numResults (competitor_finder_request zero) = 10)
  /\ (exa_search_request DEFAULT_TYPE zero = exa_search_request DEFAULT_TYPE omitted
      /\ numResults (exa_search_request DEFAULT_TYPE zero) = 5)
  /\ (search_request zero = search_request omitted
      /\ numResults (search_request zero) = 5)
  /\ (Legacy.searchRequest_of (Obj [("query", Str q); ("numResults", Num 0)])
      = Legacy.searchRequest_of (Obj [("query", Str q)])
      /\ numResults
           (Legacy.searchRequest_of (Obj [("query", Str q); ("numResults", Num 0)]))
         = 10)
  /\ numResults (web_search_request args) <> 0
  /\ numResults (research_paper_search_request args) <> 0
  /\ numResults (twitter_search_request args) <> 0
  /\ numResults (competitor_finder_request args) <> 0
  /\ numResults (exa_search_request DEFAULT_TYPE args) <> 0
  /\ numResults (search_request args) <> 0
  /\ numResults (Legacy.searchRequest_of arguments) <> 0.
Proof.
  cbv zeta. split_and!; try (split; reflexivity); try (by apply number_or_nonzero).
  cbn [Legacy.searchRequest_of numResults]. unfold or_else.
  destruct (get arguments "numResults") as [| |b|n| | |]; cbn [truthy]; try done.
  - by destruct b.
  - destruct (n =? 0) eqn:E; cbn [negb]; [done | by apply Z.eqb_neq].
  - by destruct (negb _).
Qed.

End RequestClaims.

(** ** The cache of recent searches *)

Section CacheClaims.

Import Js Exa Axios Tools Legacy.

Lemma removelast_cons {A : Type} (x : A) (l : list A) :
  l <> [] -> removelast (x :: l) = x :: removelast l.
Proof. by destruct l. Qed.

Lemma removelast_length {A : Type} (l : list A) :
  length (removelast l) = pred (length l).
Proof.
  induction l as [|x l IH]; [reflexivity|].
  destruct l as [|y l]; [reflexivity|].
  rewrite removelast_cons by done. cbn [length] in *. by rewrite IH.
Qed.

Lemma cache_search_below (entry : CachedSearch) (recentSearches : list CachedSearch) :
  (length recentSearches < MAX_CACHED_SEARCHES)%nat ->
  cache_search entry recentSearches = entry :: recentSearches.
Proof.
  intros Hlen. unfold cache_search.
  destruct (Nat.ltb_spec MAX_CACHED_SEARCHES (length (entry :: recentSearches)))
    as [Hlt|Hge]; [|done].
  cbn [length] in Hlt. lia.
Qed.

Lemma cache_search_full (entry : CachedSearch) (recentSearches : list CachedSearch) :
  (MAX_CACHED_SEARCHES <= length recentSearches)%nat ->
  cache_search entry recentSearches = entry :: removelast recentSearches.
Proof.
  intros Hlen. unfold cache_search.
  destruct (Nat.ltb_spec MAX_CACHED_SEARCHES (length (entry :: recentSearches)))
    as [Hlt|Hge].
  - apply removelast_cons. intros ->. unfold MAX_CACHED_SEARCHES in Hlen.
    cbn [length] in Hlen. lia.
  - cbn [length] in Hge. lia.
Qed.

Lemma callTool_resolved (post : Post) (now : string)
    (recentSearches : list CachedSearch) (arguments : value)
    (response : AxiosResponse) :
  isValidSearchArgs arguments = true ->
  post "/search" (SearchBody (searchRequest_of arguments)) = Resolved response ->
  callTool post now recentSearches "search" arguments
  = (cache_search (mkCached (query (searchRequest_of arguments)) (data response) now)
       recentSearches,
     Returned (mkResult [text_item (JSON_stringify (data response))] None)).
Proof.
  intros Hvalid E. unfold callTool. change (String.eqb "search" "search") with true.
  cbn [negb]. rewrite Hvalid. cbn [negb]. by rewrite E.
Qed.

(** C8. The cache of recent searches is a FIFO bounded by 5. After a
    search that succeeds, from a cache of at most 5 entries: the new
    entry is first, the cache has at most 5 entries, a cache that had
    room keeps all its entries behind the new one, and a full cache
    loses its last, oldest entry and keeps the others in order. *)
Theorem recent_searches_bounded_fifo (post : Post) (now : string)
    (recentSearches : list CachedSearch) (arguments : value)
    (response : AxiosResponse) :
  (length recentSearches <= 5)%nat ->
  isValidSearchArgs arguments = true ->
  post "/search" (SearchBody (searchRequest_of arguments)) = Resolved response ->
  let entry := mkCached (query (searchRequest_of arguments)) (data response) now in
  let settled := callTool post now recentSearches "search" arguments in
  (exists result, settled.2 = Returned result)
  /\ head settled.1 = Some entry
  /\ (length settled.1 <= 5)%nat
  /\ ((length recentSearches < 5)%nat -> settled.1 = entry :: recentSearches)
  /\ ((length recentSearches = 5)%nat ->
       exists kept oldest,
         recentSearches = kept ++ [oldest] /\ settled.1 = entry :: kept).
Proof.
  intros Hlen Hvalid E entry settled. subst settled.
  rewrite (callTool_resolved _ _ _ _ _ Hvalid E). fold entry. cbn [fst snd].
  split_and!.
  - eauto.
  - destruct (decide (length recentSearches < 5)%nat) as [Hlt|Hge].
    + by rewrite cache_search_below.
    + rewrite cache_search_full; [done | unfold MAX_CACHED_SEARCHES; lia].
  - destruct (decide (length recentSearches < 5)%nat) as [Hlt|Hge].
    + rewrite cache_search_below by done. cbn [length]. lia.
    + rewrite cache_search_full by (unfold MAX_CACHED_SEARCHES; lia).
      cbn [length]. rewrite removelast_length. lia.
  - intros Hlt. by apply cache_search_below.
  - intros Hfull.
    assert (Hne : recentSearches <> []) by (intros ->; discriminate).
    exists (removelast recentSearches), (List.last recentSearches entry). split.
    + by apply app_removelast_last.
    + apply cache_search_full. unfold MAX_CACHED_SEARCHES. lia.
Qed.

(** C8 at a full cache: the entry for "a", the oldest, is dropped. *)
Lemma recent_searches_bounded_fifo_witness :
  (callTool Samples.answers_empty "2025-01-02T00:00:00.000Z" Samples.full_cache
     "search" Samples.legacy_args).1
  = [mkCached "q" Samples.empty_results "2025-01-02T00:00:00.000Z";
     Samples.cached "e"; Samples.cached "d"; Samples.cached "c"; Samples.cached "b"].
Proof.
  assert (Hlen : (length Samples.full_cache <= 5)%nat) by (cbn; lia).
  destruct (recent_searches_bounded_fifo Samples.answers_empty
              "2025-01-02T00:00:00.000Z" Samples.full_cache Samples.legacy_args
              (mkResponse 200 Samples.empty_results) Hlen eq_refl eq_refl)
    as (_ & _ & _ & _ & Hfull).
  destruct (Hfull eq_refl) as (kept & oldest & Hsplit & ->).
  change Samples.full_cache
    with ([Samples.cached "e"; Samples.cached "d"; Samples.cached "c"; Samples.cached "b"]
          ++ [Samples.cached "a"]) in Hsplit.
  apply app_inj_tail in Hsplit as [<- _]. reflexivity.
Defined.

End CacheClaims.

(** ** Listing the tools *)

Section ListToolsClaims.

Import Registry.

Lemma registry_wf_lookup {Schema Handler : Type} (reg : Registry.registry Schema Handler)
    (i j : nat) (id : string) (ti tj : ToolRegistry Schema Handler) :
  registry_wf reg -> reg !! i = Some (id, ti) -> reg !! j = Some (id, tj) -> i = j.
Proof.
  intros Hwf Hi Hj. apply (NoDup_lookup reg.*1 i j id Hwf).
  - rewrite list_lookup_fmap. exact (f_equal (fmap fst) Hi).
  - rewrite list_lookup_fmap. exact (f_equal (fmap fst) Hj).
Qed.

Lemma toolRegistry_wf : registry_wf Tools.toolRegistry.
Proof.
  unfold Tools.toolRegistry. repeat apply register_wf. apply NoDup_nil_2.
Qed.

(** C9. Started with [--list-tools], the entry point prints the header
    and then one block of four lines for each entry of the registry, in
    order: the id with the display name, the description, Yes or No for
    the enabled-by-default flag, and an empty line; it then exits with
    status 0, whether or not an API key is set. The keys of a registry
    being distinct, no id has two blocks. Without [--list-tools] and
    without an API key the same program fails. *)
Theorem list_tools_prints_registry {Schema Handler : Type}
    (reg : Registry.registry Schema Handler) (requested : list string)
    (EXA_API_KEY : option string) :
  exists blocks,
    main (mkArgv requested true) EXA_API_KEY reg
    = Exit 0 ("Available tools:" :: concat blocks)
    /\ Forall2
         (fun entry block =>
            block = [ "- " +:+ entry.1 +:+ ": " +:+ name entry.2;
                      "  Description: " +:+ description entry.2;
                      "  Enabled by default: "
                      +:+ (if enabled entry.2 then "Yes" else "No");
                      EmptyString ])
         reg blocks
    /\ length blocks = length reg
    /\ (registry_wf reg ->
         forall i j id ti tj,
           reg !! i = Some (id, ti) -> reg !! j = Some (id, tj) -> i = j)
    /\ main (mkArgv requested false) None reg
       = Uncaught "EXA_API_KEY environment variable is required".
Proof.
  exists (map tool_block reg). split_and!.
  - reflexivity.
  - induction reg as [|[id tool] reg IH]; constructor; [reflexivity | exact IH].
  - apply length_map.
  - intros Hwf i j id ti tj. by apply registry_wf_lookup.
  - reflexivity.
Qed.

(** C9 at the registry of A and B, with no API key. *)
Lemma list_tools_prints_registry_witness :
  main (mkArgv [] true) None Samples.registry_AB
  = Exit 0
      [ "Available tools:";
        "- A: Tool A"; "  Description: first tool"; "  Enabled by default: Yes";
        EmptyString;
        "- B: Tool B"; "  Description: second tool"; "  Enabled by default: No";
        EmptyString ].
Proof.
  destruct (list_tools_prints_registry Samples.registry_AB [] None)
    as (blocks & -> & Hblocks & _).
  unfold Samples.registry_AB in Hblocks.
  apply Forall2_cons_inv_l in Hblocks as (b1 & rest & -> & Hrest & ->).
  apply Forall2_cons_inv_l in Hrest as (b2 & rest' & -> & Hnil & ->).
  apply Forall2_nil_inv_l in Hnil as ->.
  reflexivity.
Defined.

End ListToolsClaims.

(** * Further properties of the code *)

(** ** Registration and selection *)

Section RegistryMore.

Import Registry.

Context {Schema Handler : Type}.

Implicit Types (reg : Registry.registry Schema Handler).
Implicit Types (server : Registry.McpServer Schema Handler).
Implicit Types (tool : ToolRegistry Schema Handler).
Implicit Types (inc exc : gset string) (id : string).

Lemma elem_of_registry_key reg id tool : (id, tool) ∈ reg -> id ∈ reg.*1.
Proof. intros H. apply list_elem_of_fmap. by exists (id, tool). Qed.

Lemma register_elem_of id tool reg id' tool' :
  registry_wf reg ->
  (id', tool') ∈ register id tool reg <->
  (id' = id /\ tool' = tool) \/ (id' <> id /\ (id', tool') ∈ reg).
Proof.
  unfold registry_wf. induction reg as [|[k old] reg IH]; intros Hwf.
  - cbn [register]. rewrite list_elem_of_singleton. split.
    + intros [= -> ->]. by left.
    + intros [[-> ->]|[_ []%elem_of_nil]]. done.
  - rewrite fmap_cons in Hwf. apply NoDup_cons in Hwf as [Hk Hwf]. cbn [fst] in Hk.
    rewrite register_cons. destruct (String.eqb k id) eqn:E.
    + apply String.eqb_eq in E as ->. rewrite !elem_of_cons. split.
      * intros [[= -> ->]|Hin]; [by left|]. right.
        split; [|by right]. intros ->. by apply Hk, (elem_of_registry_key _ _ tool').
      * intros [[-> ->]|[Hne [[= ? ?]|Hin]]]; [by left | done | by right].
    + apply String.eqb_neq in E. rewrite !elem_of_cons, (IH Hwf). split.
      * intros [[= -> ->]|[[-> ->]|[Hne Hin]]].
        -- right. split; [done | by left].
        -- by left.
        -- right. split; [done | by right].
      * intros [[-> ->]|[Hne [[= -> ->]|Hin]]].
        -- right. by left.
        -- by left.
        -- right. right. done.
Qed.

Lemma register_length id tool reg :
  length (register id tool reg)
  = if bool_decide (id ∈ reg.*1) then length reg else S (length reg).
Proof.
  rewrite <- (length_fmap fst (register id tool reg)), register_keys.
  case_bool_decide; rewrite ?length_app, length_fmap; cbn [length]; lia.
Qed.

Lemma register_twice id tool tool2 reg :
  register id tool2 (register id tool reg) = register id tool2 reg.
Proof.
  induction reg as [|[k old] reg IH].
  - cbn [register]. by rewrite String.eqb_refl.
  - rewrite !register_cons. destruct (String.eqb k id) eqn:E.
    + by rewrite register_cons, E.
    + by rewrite register_cons, E, IH.
Qed.

(** X1. For an ordinary id (not [__proto__], not beginning with a
    digit), assigning [toolRegistry[id] = tool] keeps the keys distinct,
    leaves exactly one entry for [id], the new tool, and changes no
    other entry; the registry grows by one entry when [id] is new and
    not at all when it is taken; of two assignments to one id only the
    later one shows. *)
Theorem register_last_write_wins id tool reg :
  ordinary_id id = true ->
  registry_wf reg ->
  registry_wf (register id tool reg)
  /\ (forall id' tool',
        (id', tool') ∈ register id tool reg <->
        (id' = id /\ tool' = tool) \/ (id' <> id /\ (id', tool') ∈ reg))
  /\ length (register id tool reg)
     = (if bool_decide (id ∈ reg.*1) then length reg else S (length reg))
  /\ (forall tool2,
        register id tool2 (register id tool reg) = register id tool2 reg).
Proof.
  intros _ Hwf. split_and!.
  - by apply register_wf.
  - intros id' tool'. by apply register_elem_of.
  - apply register_length.
  - intros tool2. apply register_twice.
Qed.

Lemma bind_all_app server (entries : list (string * ToolRegistry Schema Handler)) :
  bind_all server entries
  = server ++ ((fun e => (name e.2, description e.2, schema e.2, handler e.2)) <$> entries).
Proof.
  unfold bind_all. revert server.
  induction entries as [|e entries IH]; intros server.
  - by rewrite app_nil_r.
  - rewrite !fmap_cons. cbn [fold_left]. rewrite IH. unfold server_tool.
    by rewrite <- app_assoc.
Qed.

Lemma filter_sublist {A : Type} (f : A -> bool) (l : list A) :
  List.filter f l `sublist_of` l.
Proof.
  induction l as [|x l IH]; cbn [List.filter]; [constructor|].
  destruct (f x); by constructor.
Qed.

Lemma spec_marked_split inc exc (e : string * ToolRegistry Schema Handler) :
  spec_marked inc exc e = spec_marked inc ∅ e && bool_decide (e.1 ∉ exc).
Proof.
  unfold spec_marked.
  rewrite (bool_decide_eq_true_2 (e.1 ∉ ∅)) by set_solver.
  by rewrite andb_true_r.
Qed.

(** X2. With nothing disabled the two selectors are one: on every
    registry, server and set of requested tools [registerEnabledTools]
    returns what [setupTools] returns. *)
Theorem selectors_agree reg server inc :
  registerEnabledTools reg server inc ∅ = setupTools reg inc server.
Proof. by rewrite registerEnabledTools_selection, setupTools_selection. Qed.

(** X3. Both selectors go through the registry in its order: the
    enabled entries are a sublist of the registry, their ids are
    returned in that order, and the server keeps the tools it had and
    gets after them one binding (name, description, schema, handler) for
    each enabled entry, in the same order. *)
Theorem selection_follows_registry_order reg server inc exc :
  exists entries,
    entries `sublist_of` reg
    /\ registerEnabledTools reg server inc exc
       = (server
          ++ ((fun e => (name e.2, description e.2, schema e.2, handler e.2)) <$> entries),
          entries.*1)
    /\ exists entries',
         entries' `sublist_of` reg
         /\ setupTools reg inc server
            = (server
               ++ ((fun e => (name e.2, description e.2, schema e.2, handler e.2))
                     <$> entries'),
               entries'.*1)
         /\ entries `sublist_of` entries'.
Proof.
  exists (List.filter (spec_marked inc exc) reg). split_and!.
  - apply filter_sublist.
  - by rewrite registerEnabledTools_selection, bind_all_app.
  - exists (List.filter (spec_marked inc ∅) reg). split_and!.
    + apply filter_sublist.
    + by rewrite setupTools_selection, bind_all_app.
    + induction reg as [|e reg IH]; cbn [List.filter]; [constructor|].
      rewrite (spec_marked_split inc exc e).
      destruct (spec_marked inc ∅ e); cbn [andb]; [|exact IH].
      destruct (bool_decide (e.1 ∉ exc)); by constructor.
Qed.

(** X4. Disabling tools only removes: the ids [registerEnabledTools]
    returns are those it returns with nothing disabled, without the
    disabled ones, in the same order. *)
Theorem disabling_filters_selection reg server inc exc :
  (registerEnabledTools reg server inc exc).2
  = List.filter (fun id => bool_decide (id ∉ exc))
      (registerEnabledTools reg server inc ∅).2.
Proof.
  rewrite !registerEnabledTools_selection. cbn [snd]. unfold spec_selection.
  induction reg as [|e reg IH]; [reflexivity|].
  cbn [List.filter]. rewrite (spec_marked_split inc exc e).
  destruct (spec_marked inc ∅ e); cbn [andb].
  - rewrite fmap_cons. cbn [List.filter].
    destruct (bool_decide (e.1 ∉ exc)); [rewrite fmap_cons|]; by rewrite IH.
  - exact IH.
Qed.

(** X5. The entry point reads [--tools] as a set: two lists with the
    same members, whatever their order and repetitions, give the same
    outcome. *)
Theorem tools_option_is_a_set reg (requested requested' : list string)
    (listing : bool) (EXA_API_KEY : option string) :
  (forall id, id ∈ requested <-> id ∈ requested') ->
  main (mkArgv requested listing) EXA_API_KEY reg
  = main (mkArgv requested' listing) EXA_API_KEY reg.
Proof.
  intros Hsame. unfold main. cbn [tools list_tools].
  replace (list_to_set requested' : gset string) with (list_to_set requested : gset string);
    [done|].
  apply set_eq. intros id. by rewrite !elem_of_list_to_set.
Qed.

End RegistryMore.

Section RegistryInstances.

Import Registry.

(** X1 at the registry of A and B: registering B again replaces it. *)
Lemma register_last_write_wins_witness :
  register "B" Samples.tool_A Samples.registry_AB
  = [("A", Samples.tool_A); ("B", Samples.tool_A)]
  /\ length (register "B" Samples.tool_A Samples.registry_AB) = 2%nat.
Proof.
  assert (Hwf : registry_wf Samples.registry_AB).
  { unfold registry_wf. cbn. repeat constructor;
      [by intros ?%list_elem_of_singleton | by intros ?%elem_of_nil]. }
  destruct (register_last_write_wins "B" Samples.tool_A Samples.registry_AB eq_refl Hwf)
    as (_ & _ & Hlen & _).
  split; [reflexivity | by rewrite Hlen].
Defined.

(** X5 at two spellings of one selection. *)
Lemma tools_option_is_a_set_witness :
  main (mkArgv ["B"; "A"; "B"] false) (Some "key") Samples.registry_AB
  = main (mkArgv ["A"; "B"] false) (Some "key") Samples.registry_AB.
Proof.
  apply tools_option_is_a_set. intros id.
  rewrite !elem_of_cons, !elem_of_nil. naive_solver.
Defined.

Lemma toolRegistry_ids_ordinary :
  ordinary_id "web_search" = true
  /\ ordinary_id "research_paper_search" = true
  /\ ordinary_id "twitter_search" = true
  /\ ordinary_id "company_research" = true
  /\ ordinary_id "crawling" = true.
Proof. by split_and!. Qed.

Lemma toolRegistry_entries :
  Tools.toolRegistry
  = [("web_search", Tools.web_search_tool);
     ("research_paper_search", Tools.research_paper_search_tool);
     ("twitter_search", Tools.twitter_search_tool);
     ("company_research", Tools.company_research_tool);
     ("crawling", Tools.crawling_tool)].
Proof. reflexivity. Qed.

(** X6. In the registry the tool modules build, every tool is
    registered under its own name and the keys are distinct: whatever
    [--tools] selects, the names bound into the server are, in order,
    the ids [setupTools] returns, and each of them is one of the five
    registered ids. With no selection it binds web_search and
    research_paper_search, and nothing else. *)
Theorem shipped_registry_selection (inc : gset string)
    (server : McpServer Tools.Schema Tools.Handler) :
  registry_wf Tools.toolRegistry
  /\ (exists bound,
        (setupTools Tools.toolRegistry inc server).1 = server ++ bound
        /\ (fun b => b.1.1.1) <$> bound = (setupTools Tools.toolRegistry inc server).2)
  /\ (forall id,
        id ∈ (setupTools Tools.toolRegistry inc server).2 ->
        id ∈ ["web_search"; "research_paper_search"; "twitter_search";
              "company_research"; "crawling"])
  /\ (setupTools Tools.toolRegistry ∅ server).2 = ["web_search"; "research_paper_search"].
Proof.
  split_and!.
  - apply toolRegistry_wf.
  - rewrite setupTools_selection, bind_all_app. cbn [fst snd].
    eexists. split; [reflexivity|]. unfold spec_selection.
    rewrite <- list_fmap_compose. apply Forall_fmap_ext_1.
    apply Forall_forall. intros [id tool] Hin%list_elem_of_In%filter_In.
    destruct Hin as [Hin%list_elem_of_In _]. rewrite toolRegistry_entries in Hin.
    repeat (apply elem_of_cons in Hin as [[= -> ->]|Hin]; [reflexivity|]).
    by apply elem_of_nil in Hin.
  - intros id Hin. rewrite setupTools_selection in Hin. cbn [snd] in Hin.
    apply spec_selection_keys in Hin. by rewrite toolRegistry_entries in Hin.
  - rewrite setupTools_selection. cbn [snd]. by vm_compute.
Qed.

End RegistryInstances.

(** ** More on the handlers *)

Section HandlerMore.

Import Js Exa Axios Tools.


(** X8. A response whose body is an object with a non-empty [results]
    array is relayed as it is: every handler, crawling included,
    returns the body serialised with two spaces of indentation, and no
    error flag. *)
Theorem results_relayed_verbatim (t : tool_name) (post : Post) (args : Arg.t)
    (status : Z) (props : list (string * value)) (first : value) (others : list value) :
  post (posted t args).1 (posted t args).2 = Resolved (mkResponse status (Obj props)) ->
  lookup_prop "results" props = Arr (first :: others) ->
  handler_of t post args
  = Returned (mkResult [text_item (JSON_stringify (Obj props))] None).
Proof.
  intros Hpost Hresults. rewrite (handler_resolved _ _ _ _ Hpost).
  assert (Hvalid : empty_or_invalid (mkResponse status (Obj props)) = false).
  { unfold empty_or_invalid. cbn [data truthy get negb orb]. by rewrite Hresults. }
  assert (Hcrawled : nothing_crawled (mkResponse status (Obj props)) = false).
  { unfold nothing_crawled. rewrite Hvalid. cbn [data get orb]. rewrite Hresults.
    cbn [length_of is_zero length]. apply Z.eqb_neq. lia. }
  destruct t; by rewrite ?Hvalid, ?Hcrawled.
Qed.

(** X9. An optional filter reaches the upstream only when it says
    something: the Twitter search never sends an empty date, the
    competitor finder sends [excludeDomains] only as the list of one
    non-empty domain, company research never sends an empty list of
    subpage targets, and [exa_search] never sends an empty category. *)
Theorem optional_filters_never_empty (args : Arg.t) (DEFAULT_TYPE : string) :
  startPublishedDate (twitter_search_request args) <> Some EmptyString
  /\ endPublishedDate (twitter_search_request args) <> Some EmptyString
  /\ (forall domains,
        excludeDomains (competitor_finder_request args) = Some domains ->
        exists c rest,
          domains = [String c rest] /\ Arg.excludeDomain args = Some (String c rest))
  /\ subpageTarget (contents (company_research_request args)) <> Some []
  /\ category (exa_search_request DEFAULT_TYPE args) <> Some EmptyString.
Proof.
  split_and!.
  - cbn. by destruct (Arg.startPublishedDate args) as [[|]|].
  - cbn. by destruct (Arg.endPublishedDate args) as [[|]|].
  - intros domains. cbn.
    destruct (Arg.excludeDomain args) as [[|c rest]|]; intros [= <-]; eauto.
  - cbn. by destruct (Arg.subpageTarget args) as [[|]|].
  - cbn. by destruct (Arg.category args) as [[|]|].
Qed.

End HandlerMore.

Section HandlerMoreInstances.

Import Js Exa Axios Tools.

(** X8 at a crawl that finds one page. *)
Lemma results_relayed_verbatim_witness :
  crawling
    (fun _ _ => Resolved (mkResponse 200 (Obj [("results", Arr [Str "page"])])))
    Samples.args_exa_ai
  = Returned
      (mkResult
         [text_item (JSON_stringify (Obj [("results", Arr [Str "page"])]))] None).
Proof.
  exact (results_relayed_verbatim crawling_name
           (fun _ _ => Resolved (mkResponse 200 (Obj [("results", Arr [Str "page"])])))
           Samples.args_exa_ai 200 [("results", Arr [Str "page"])] (Str "page") []
           eq_refl eq_refl).
Defined.

End HandlerMoreInstances.

(** ** The lines of a web search *)

Section LoggerFacts.

Import Js Exa Axios Tools Logger.

Lemma append_cons (c : ascii) (s t : string) : String c s +:+ t = String c (s +:+ t).
Proof. reflexivity. Qed.

Lemma append_inv_head (p a b : string) : p +:+ a = p +:+ b -> a = b.
Proof.
  induction p as [|c p IH]; [done|].
  rewrite !append_cons. intros [= H]. by apply IH.
Qed.

Lemma request_log_head (requestId toolName message : string) :
  request_log requestId toolName message = line_head requestId toolName +:+ message.
Proof. unfold request_log, log, line_head. by rewrite append_assoc. Qed.

Lemma request_start_head (requestId toolName query : string) :
  request_start requestId toolName query
  = line_head requestId toolName
    +:+ "Starting search for query: "
    +:+ String Text.quote (query +:+ String Text.quote EmptyString).
Proof. unfold request_start, log, line_head. by rewrite append_assoc. Qed.

Lemma request_error_head (requestId toolName : string) (error : Thrown) :
  request_error requestId toolName error
  = line_head requestId toolName +:+ "Error: " +:+ error_text error.
Proof. unfold request_error, log, line_head. by rewrite append_assoc. Qed.

Lemma request_complete_head (requestId toolName : string) :
  request_complete requestId toolName
  = line_head requestId toolName +:+ "Successfully completed request".
Proof. unfold request_complete, log, line_head. by rewrite append_assoc. Qed.

Ltac line_heads :=
  rewrite ?request_log_head, ?request_start_head, ?request_error_head,
    ?request_complete_head.

Ltac lines_differ H :=
  rewrite ?request_log_head, ?request_start_head, ?request_error_head,
    ?request_complete_head in H;
  apply append_inv_head in H; rewrite ?append_cons in H; discriminate H.


End LoggerFacts.

(** ** The cache over many calls *)

Section SessionFacts.

Import Js Exa Axios Tools Legacy Resources.

Lemma cache_search_take (entry : CachedSearch) (recentSearches : list CachedSearch) :
  (length recentSearches <= 5)%nat ->
  cache_search entry recentSearches = take 5 (entry :: recentSearches).
Proof.
  intros Hlen. destruct (decide (length recentSearches < 5)%nat) as [Hlt|Hge].
  - rewrite cache_search_below by done. symmetry. apply take_ge. cbn [length]. lia.
  - rewrite cache_search_full by (unfold MAX_CACHED_SEARCHES; lia).
    rewrite removelast_firstn_len. replace (length recentSearches) with 5%nat by lia.
    reflexivity.
Qed.

Lemma callTool_cache (call : Call) (recentSearches : list CachedSearch) :
  (callTool (call_post call) (call_now call) recentSearches
     (call_name call) (call_arguments call)).1
  = match cached_entry call with
    | Some entry => cache_search entry recentSearches
    | None => recentSearches
    end.
Proof.
  unfold callTool, cached_entry.
  destruct (String.eqb (call_name call) "search"); cbn [negb andb fst]; [|done].
  destruct (isValidSearchArgs (call_arguments call)); cbn [negb fst]; [|done].
  destruct (call_post call "/search" (SearchBody (searchRequest_of (call_arguments call))))
    as [response|error]; [done|]. by destruct error.
Qed.

Lemma take_app_take {A : Type} (n : nat) (l k : list A) :
  take n (l ++ take n k) = take n (l ++ k).
Proof.
  rewrite !take_app. f_equal. rewrite take_take. f_equal. lia.
Qed.

Lemma serve_take (calls : list Call) (recentSearches : list CachedSearch) :
  (length recentSearches <= 5)%nat ->
  serve calls recentSearches
  = take 5 (rev (omap cached_entry calls) ++ recentSearches).
Proof.
  revert recentSearches. induction calls as [|call calls IH]; intros cache Hlen.
  - cbn. symmetry. by apply take_ge.
  - change (serve (call :: calls) cache)
      with (serve calls
              (callTool (call_post call) (call_now call) cache
                 (call_name call) (call_arguments call)).1).
    change (omap cached_entry (call :: calls))
      with (match cached_entry call with
            | Some entry => entry :: omap cached_entry calls
            | None => omap cached_entry calls
            end).
    rewrite callTool_cache.
    destruct (cached_entry call) as [entry|].
    + rewrite IH.
      * rewrite cache_search_take by done. rewrite take_app_take.
        cbn [rev]. by rewrite <- app_assoc.
      * rewrite cache_search_take by done. rewrite length_take. lia.
    + by rewrite IH.
Qed.

(** X11. Whatever calls the 0.1.0 server handles, one after the other
    from an empty cache, and however each of them ends, the cache then
    holds the entries of the calls that succeeded (search tool, valid
    arguments, upstream resolved), newest first, cut to the last five;
    so it never holds more than five, and a failed call leaves it as it
    was. *)
Theorem cache_holds_latest_successes (calls : list Call) :
  serve calls [] = take 5 (rev (omap cached_entry calls))
  /\ (length (serve calls []) <= 5)%nat
  /\ (forall call,
        cached_entry call = None -> serve (calls ++ [call]) [] = serve calls []).
Proof.
  assert (H : serve calls [] = take 5 (rev (omap cached_entry calls))).
  { rewrite serve_take by (cbn; lia). by rewrite app_nil_r. }
  split_and!.
  - exact H.
  - rewrite H, length_take. lia.
  - intros call Hnone. unfold serve. rewrite fold_left_app. cbn [fold_left].
    by rewrite callTool_cache, Hnone.
Qed.

(** X12. A call the 0.1.0 handler turns down never reaches the
    upstream and never touches the cache: for a name other than search
    it throws the protocol error for an unknown method, whatever the
    arguments are; for the search tool with arguments that fail
    [isValidSearchArgs] it throws the error for invalid parameters. *)
Theorem callTool_turns_down_before_posting (post : Post) (now : string)
    (recentSearches : list CachedSearch) (name : string) (arguments : value) :
  (name <> "search" ->
     callTool post now recentSearches name arguments
     = (recentSearches, Threw (McpError MethodNotFound ("Unknown tool: " +:+ name))))
  /\ (isValidSearchArgs arguments = false ->
       callTool post now recentSearches "search" arguments
       = (recentSearches, Threw (McpError InvalidParams "Invalid search arguments")))
  /\ (name <> "search" \/ isValidSearchArgs arguments = false ->
       forall post' now',
         callTool post' now' recentSearches name arguments
         = callTool post now recentSearches name arguments).
Proof.
  split_and!.
  - intros Hname. unfold callTool. by apply String.eqb_neq in Hname as ->.
  - intros Hargs. unfold callTool. change (String.eqb "search" "search") with true.
    cbn [negb]. by rewrite Hargs.
  - intros Hturned post' now'. unfold callTool.
    destruct (String.eqb name "search") eqn:E; cbn [negb]; [|done].
    destruct Hturned as [Hname|Hargs].
    + by apply String.eqb_eq in E.
    + by rewrite Hargs.
Qed.

End SessionFacts.

Section SessionInstances.

Import Js Exa Axios Tools Legacy Resources.

(** X12 at a call for a tool that does not exist and at a search whose
    query is a number. *)
Lemma callTool_turns_down_before_posting_witness :
  callTool Samples.answers_empty "2025-01-02T00:00:00.000Z" Samples.full_cache
    "crawl" Samples.legacy_args
  = (Samples.full_cache, Threw (McpError MethodNotFound "Unknown tool: crawl"))
  /\ callTool Samples.answers_empty "2025-01-02T00:00:00.000Z" Samples.full_cache
       "search" (Obj [("query", Num 7)])
     = (Samples.full_cache, Threw (McpError InvalidParams "Invalid search arguments")).
Proof.
  split.
  - destruct (callTool_turns_down_before_posting Samples.answers_empty
                "2025-01-02T00:00:00.000Z" Samples.full_cache "crawl" Samples.legacy_args)
      as (Hname & _ & _).
    apply Hname. discriminate.
  - destruct (callTool_turns_down_before_posting Samples.answers_empty
                "2025-01-02T00:00:00.000Z" Samples.full_cache "search"
                (Obj [("query", Num 7)]))
      as (_ & Hargs & _).
    apply Hargs. reflexivity.
Defined.

End SessionInstances.

(** ** Listing and reading the cached searches *)

Section ResourceFacts.

Import Js Exa Axios Tools Legacy Resources.

Lemma strip_prefix_spec (p s rest : string) :
  strip_prefix p s = Some rest <-> s = p +:+ rest.
Proof.
  revert s. induction p as [|a p IH]; intros s.
  - cbn. split; [by intros [= ->] | by intros ->].
  - destruct s as [|b s]; cbn [strip_prefix]; rewrite append_cons.
    + split; discriminate.
    + destruct (Ascii.eqb a b) eqn:E.
      * apply Ascii.eqb_eq in E as ->. rewrite IH. split; [by intros -> | by intros [= ->]].
      * apply Ascii.eqb_neq in E. split; [discriminate | by intros [= ? ?]].
Qed.

Lemma match_uri_spec (uri digits : string) :
  match_uri uri = Some digits <->
  uri = uri_prefix +:+ digits /\ digits <> EmptyString /\ all_digits digits = true.
Proof.
  unfold match_uri. split.
  - destruct (strip_prefix uri_prefix uri) as [[|c rest]|] eqn:E; try discriminate.
    destruct (all_digits (String c rest)) eqn:D; [|discriminate].
    intros [= <-]. by apply strip_prefix_spec in E.
  - intros (-> & Hne & Hd).
    rewrite (proj2 (strip_prefix_spec uri_prefix _ digits) eq_refl).
    destruct digits as [|c rest]; [done|]. by rewrite Hd.
Qed.

Lemma string_of_uint_digits (d : Decimal.uint) :
  all_digits (NilEmpty.string_of_uint d) = true.
Proof. induction d; cbn [NilEmpty.string_of_uint all_digits]; by rewrite ?IHd. Qed.

(** A natural number is printed as a non-empty run of digits that
    [parseInt] reads back. *)
Lemma index_digits (i : nat) :
  num_to_string (Z.of_nat i) <> EmptyString
  /\ all_digits (num_to_string (Z.of_nat i)) = true
  /\ parseInt (num_to_string (Z.of_nat i)) = Z.of_nat i.
Proof.
  unfold num_to_string, parseInt.
  pose proof (DecimalZ.of_to (Z.of_nat i)) as Hback.
  destruct (Z.of_nat i) as [|p|p] eqn:E; [| |lia].
  - by split_and!.
  - cbn [Z.to_int NilZero.string_of_int] in *. unfold NilZero.string_of_uint.
    pose proof (DecimalPos.Unsigned.to_uint_nonnil p) as Hnil.
    destruct (Pos.to_uint p) eqn:Ep; try done;
      rewrite <- Ep in *; (split_and!;
        [ rewrite Ep; discriminate
        | apply string_of_uint_digits
        | by rewrite NilEmpty.usu ]).
Qed.

Lemma match_uri_index (i : nat) :
  match_uri (uri_prefix +:+ num_to_string (Z.of_nat i))
  = Some (num_to_string (Z.of_nat i)).
Proof.
  destruct (index_digits i) as (Hne & Hd & _). by apply match_uri_spec.
Qed.

(** X13. Listing and reading agree. The listing has one resource for
    each cached search, in order; the resource at index [i] has the uri
    exa://searches/i and names the query of the search; reading that
    uri returns one JSON document, the serialised response of that very
    search. *)
Theorem listed_resources_can_be_read (recentSearches : list CachedSearch)
    (i : nat) (search : CachedSearch) :
  recentSearches !! i = Some search ->
  length (listResources recentSearches) = length recentSearches
  /\ exists resource,
       listResources recentSearches !! i = Some resource
       /\ uri resource = "exa://searches/" +:+ num_to_string (Z.of_nat i)
       /\ name resource = "Recent search: " +:+ cached_query search
       /\ readResource recentSearches (uri resource)
          = ReadReturned
              [mkRead (uri resource) "application/json"
                 (JSON_stringify (response search))].
Proof.
  intros Hi. split; [apply length_imap|].
  eexists. split; [unfold listResources; by rewrite list_lookup_imap, Hi|].
  cbn [uri name]. split_and!; [reflexivity | reflexivity |].
  unfold readResource. fold uri_prefix. rewrite match_uri_index.
  destruct (index_digits i) as (_ & _ & ->). by rewrite Nat2Z.id, Hi.
Qed.

(** X14. Reading succeeds exactly for the uris of the cached searches:
    exa://searches/ followed by one or more decimal digits whose value
    is an index of the cache. Every other read throws the protocol
    error for an invalid request: with the text for an unknown
    resource when the uri has not that form, with the text for a
    missing search result when the index is out of range (and below
    2^53, up to where [parseInt] is exact). *)
Theorem readResource_succeeds_iff (recentSearches : list CachedSearch) (uri : string) :
  ((exists contents, readResource recentSearches uri = ReadReturned contents) <->
   exists digits,
     uri = "exa://searches/" +:+ digits
     /\ digits <> EmptyString
     /\ all_digits digits = true
     /\ (Z.to_nat (parseInt digits) < length recentSearches)%nat)
  /\ (match_uri uri = None ->
       readResource recentSearches uri
       = ReadThrew (McpError InvalidRequest ("Unknown resource: " +:+ uri)))
  /\ (forall digits,
       match_uri uri = Some digits ->
       (length recentSearches <= Z.to_nat (parseInt digits))%nat ->
       parseInt digits < 2 ^ 53 ->
       readResource recentSearches uri
       = ReadThrew
           (McpError InvalidRequest
              ("Search result not found: " +:+ num_to_string (parseInt digits)))).
Proof.
  split_and!.
  - unfold readResource. split.
    + intros [contents H].
      destruct (match_uri uri) as [digits|] eqn:E; [|discriminate].
      apply match_uri_spec in E as (-> & Hne & Hd).
      destruct (recentSearches !! Z.to_nat (parseInt digits)) eqn:L; [|discriminate].
      apply lookup_lt_Some in L. by exists digits.
    + intros (digits & -> & Hne & Hd & Hlt).
      change ("exa://searches/" +:+ digits) with (uri_prefix +:+ digits).
      rewrite (proj2 (match_uri_spec _ digits) (conj eq_refl (conj Hne Hd))).
      apply lookup_lt_is_Some in Hlt as [search ->]. eauto.
  - intros E. unfold readResource. by rewrite E.
  - intros digits E Hge _. unfold readResource. rewrite E.
    by rewrite (lookup_ge_None_2 _ _ Hge).
Qed.

(** X15. A search that succeeds can be read back at once: after the
    call, the resource exa://searches/0 holds the very text the call
    returned, and, the cache having had at most five entries, every
    search that was at an index below 4 is now one index further. *)
Theorem latest_search_is_resource_zero (post : Post) (now : string)
    (recentSearches : list CachedSearch) (arguments : value)
    (response : AxiosResponse) :
  (length recentSearches <= 5)%nat ->
  isValidSearchArgs arguments = true ->
  post "/search" (SearchBody (searchRequest_of arguments)) = Resolved response ->
  let settled := callTool post now recentSearches "search" arguments in
  settled.2
  = Returned (mkResult [text_item (JSON_stringify (data response))] None)
  /\ readResource settled.1 "exa://searches/0"
     = ReadReturned
         [mkRead "exa://searches/0" "application/json"
            (JSON_stringify (data response))]
  /\ (forall i search,
        (i < 4)%nat -> recentSearches !! i = Some search ->
        settled.1 !! S i = Some search).
Proof.
  intros Hlen Hvalid Hpost settled. subst settled.
  rewrite (callTool_resolved _ _ _ _ _ Hvalid Hpost). cbn [fst snd].
  rewrite cache_search_take by done. split_and!.
  - reflexivity.
  - reflexivity.
  - intros i search Hi Hsearch. rewrite lookup_take_lt by lia. exact Hsearch.
Qed.

End ResourceFacts.

Section ResourceInstances.

Import Js Exa Axios Tools Legacy Resources.

(** X13 at the third entry of a full cache. *)
Lemma listed_resources_can_be_read_witness :
  readResource Samples.full_cache "exa://searches/2"
  = ReadReturned [mkRead "exa://searches/2" "application/json" "null"].
Proof.
  destruct (listed_resources_can_be_read Samples.full_cache 2 (Samples.cached "c") eq_refl)
    as (_ & resource & _ & Huri & _ & Hread).
  rewrite Huri in Hread. exact Hread.
Defined.

(** X15 at a search made on a full cache. *)
Lemma latest_search_is_resource_zero_witness :
  readResource
    (callTool Samples.answers_empty "2025-01-02T00:00:00.000Z" Samples.full_cache
       "search" Samples.legacy_args).1
    "exa://searches/0"
  = ReadReturned
      [mkRead "exa://searches/0" "application/json"
         (JSON_stringify Samples.empty_results)].
Proof.
  assert (Hlen : (length Samples.full_cache <= 5)%nat) by (cbn; lia).
  destruct (latest_search_is_resource_zero Samples.answers_empty
              "2025-01-02T00:00:00.000Z" Samples.full_cache Samples.legacy_args
              (mkResponse 200 Samples.empty_results) Hlen eq_refl eq_refl)
    as (_ & Hread & _).
  exact Hread.
Defined.

End ResourceInstances.

(** ** One request per call, and the errors of the 0.1.0 handler *)

Section UpstreamFacts.

Import Js Exa Axios Tools Legacy Resources.

(** X14 at an index the cache does not have and at a foreign uri. *)
Lemma readResource_succeeds_iff_witness :
  readResource Samples.full_cache "exa://searches/9"
  = ReadThrew (McpError InvalidRequest "Search result not found: 9")
  /\ readResource Samples.full_cache "exa://searches/"
     = ReadThrew (McpError InvalidRequest "Unknown resource: exa://searches/").
Proof.
  split.
  - destruct (readResource_succeeds_iff Samples.full_cache "exa://searches/9")
      as (_ & _ & Hrange).
    apply (Hrange "9"); [reflexivity | cbn; lia | reflexivity].
  - destruct (readResource_succeeds_iff Samples.full_cache "exa://searches/")
      as (_ & Hform & _).
    by apply Hform.
Defined.

(** X16. A handler meets the upstream in one place only: it posts to
    /search, the crawling handler to /contents, and two upstreams that
    answer this one request alike make the handler settle alike,
    whatever else they would answer. *)
Theorem handler_meets_upstream_once (t : tool_name) (post post' : Post) (args : Arg.t) :
  post (posted t args).1 (posted t args).2 = post' (posted t args).1 (posted t args).2 ->
  handler_of t post args = handler_of t post' args
  /\ (posted t args).1
     = (match t with crawling_name => "/contents" | _ => "/search" end).
Proof.
  intros Hsame. split; [|by destruct t].
  rewrite (handler_posts_once t post), (handler_posts_once t post'). by rewrite Hsame.
Qed.

(** X16 at two upstreams that differ away from /search. *)
Lemma handler_meets_upstream_once_witness :
  web_search Samples.answers_empty Samples.args_exa_ai
  = web_search
      (fun endpoint body =>
         if String.eqb endpoint "/search"
         then Samples.answers_empty endpoint body
         else Samples.answers_boom endpoint body)
      Samples.args_exa_ai.
Proof.
  exact (proj1 (handler_meets_upstream_once web_search_name Samples.answers_empty
                  (fun endpoint body =>
                     if String.eqb endpoint "/search"
                     then Samples.answers_empty endpoint body
                     else Samples.answers_boom endpoint body)
                  Samples.args_exa_ai eq_refl)).
Defined.



End UpstreamFacts.

(** ** Closed instances *)

Section MoreInstances.

Import Js Exa Axios Tools Legacy Resources Logger.

(** X6 at the server started without [--tools]. *)
Lemma shipped_registry_selection_witness :
  (Registry.setupTools toolRegistry ∅ []).2 = ["web_search"; "research_paper_search"]
  /\ "web_search" ∈ ["web_search"; "research_paper_search"; "twitter_search";
                     "company_research"; "crawling"].
Proof.
  destruct (shipped_registry_selection ∅ []) as (_ & _ & Hknown & Hdefault).
  split; [exact Hdefault|].
  apply Hknown. rewrite Hdefault. by left.
Defined.

(** X9 at a competitor search that excludes exa.ai. *)
Lemma optional_filters_never_empty_witness :
  excludeDomains
    (competitor_finder_request
       (Arg.mk "web search API" EmptyString None None None (Some "exa.ai")
          (Some EmptyString) None None None None None None))
  = Some ["exa.ai"]
  /\ startPublishedDate
       (twitter_search_request
          (Arg.mk "web search API" EmptyString None None None (Some "exa.ai")
             (Some EmptyString) None None None None None None))
     = None.
Proof.
  destruct (optional_filters_never_empty
              (Arg.mk "web search API" EmptyString None None None (Some "exa.ai")
                 (Some EmptyString) None None None None None None)
              "auto")
    as (Hstart & _ & Hexclude & _).
  split; [reflexivity|].
  destruct (startPublishedDate _) as [[|c s]|] eqn:E; [done | discriminate E | done].
Defined.


(** X11 at seven searches, the third of which the upstream rejects. *)
Lemma cache_holds_latest_successes_witness :
  cached_query
    <$> serve
          [mkCall Samples.answers_empty "t1" "search" (Obj [("query", Str "q1")]);
           mkCall Samples.answers_empty "t2" "search" (Obj [("query", Str "q2")]);
           mkCall Samples.answers_429 "t3" "search" (Obj [("query", Str "q3")]);
           mkCall Samples.answers_empty "t4" "search" (Obj [("query", Str "q4")]);
           mkCall Samples.answers_empty "t5" "search" (Obj [("query", Str "q5")]);
           mkCall Samples.answers_empty "t6" "search" (Obj [("query", Str "q6")]);
           mkCall Samples.answers_empty "t7" "search" (Obj [("query", Str "q7")])]
          []
  = ["q7"; "q6"; "q5"; "q4"; "q2"].
Proof.
  destruct (cache_holds_latest_successes
              [mkCall Samples.answers_empty "t1" "search" (Obj [("query", Str "q1")]);
               mkCall Samples.answers_empty "t2" "search" (Obj [("query", Str "q2")]);
               mkCall Samples.answers_429 "t3" "search" (Obj [("query", Str "q3")]);
               mkCall Samples.answers_empty "t4" "search" (Obj [("query", Str "q4")]);
               mkCall Samples.answers_empty "t5" "search" (Obj [("query", Str "q5")]);
               mkCall Samples.answers_empty "t6" "search" (Obj [("query", Str "q6")]);
               mkCall Samples.answers_empty "t7" "search" (Obj [("query", Str "q7")])])
    as (-> & _ & _).
  reflexivity.
Defined.

End MoreInstances.
